(** * AI_URL_Detector: feature extraction, OSINT probes and hybrid verdict

    A shallow embedding of [src/feature_extractor.py] and of the two scan
    handlers of [app.py] ([predict] and [api_scan]).

    Python values are modelled as follows.
    - [str] is [string]; a character is a code point below 256, which is the
      range an [ascii] holds.  The character classes ([isspace], [isdigit],
      [isalpha]) and [lower] are CPython's on that range.
    - [int] is [Z]; the flags the program stores as [0]/[1] stay integers.
    - a call into a library that may raise returns an [Exc]; the network
      calls moreover append to a log of events, so that "no probe was
      started" is a statement about the log. *)

From Stdlib Require Import ZArith List String Ascii Bool Lia.
From Stdlib Require Import Sorting.Permutation Sorting.Sorted.
Import ListNotations.

#[local] Open Scope string_scope.
#[local] Open Scope Z_scope.

(** ** Python string primitives *)

Module PyStr.

Definition code (c : ascii) : N := N_of_ascii c.

Definition between (lo hi : N) (c : ascii) : bool :=
  ((lo <=? code c) && (code c <=? hi))%N.

(** [str.isspace] on one character: TAB..CR, FS..US and SPACE, NEL, NBSP. *)
Definition isspace (c : ascii) : bool :=
  between 9 13 c || between 28 32 c || (code c =? 133)%N || (code c =? 160)%N.

(** [str.isdigit]: the decimal digits and the superscripts 1, 2, 3. *)
Definition isdigit (c : ascii) : bool :=
  between 48 57 c || between 178 179 c || (code c =? 185)%N.

Definition isupper (c : ascii) : bool :=
  between 65 90 c || (between 192 222 c && negb (code c =? 215)%N).

(** [str.isalpha]: the Latin letters, the ordinal indicators, the micro
    sign, and the accented letters (192..255 without the two operators). *)
Definition isalpha (c : ascii) : bool :=
  between 65 90 c || between 97 122 c
  || (code c =? 170)%N || (code c =? 181)%N || (code c =? 186)%N
  || (between 192 255 c && negb (code c =? 215)%N && negb (code c =? 247)%N).

Definition lower_char (c : ascii) : ascii :=
  if isupper c then ascii_of_N (code c + 32) else c.

(** [s.lower()] *)
Fixpoint lower (s : string) : string :=
  match s with
  | EmptyString => EmptyString
  | String c s' => String (lower_char c) (lower s')
  end.

(** [s.lstrip()], [s.rstrip()] and [s.strip()] with no argument. *)
Fixpoint lstrip (s : string) : string :=
  match s with
  | EmptyString => EmptyString
  | String c s' => if isspace c then lstrip s' else s
  end.

Fixpoint rstrip (s : string) : string :=
  match s with
  | EmptyString => EmptyString
  | String c s' =>
      match rstrip s' with
      | EmptyString => if isspace c then EmptyString else String c EmptyString
      | r => String c r
      end
  end.

Definition strip (s : string) : string := rstrip (lstrip s).

(** [s.startswith(p)] *)
Definition startswith (s p : string) : bool := String.prefix p s.

(** [sub in s] *)
Fixpoint contains (sub s : string) : bool :=
  String.prefix sub s
  || match s with
     | EmptyString => false
     | String _ s' => contains sub s'
     end.

(** [s.count(sub)] for a non-empty [sub]: occurrences are taken from the
    left and do not overlap; [skip] is the number of characters of the last
    match still to be passed. *)
Fixpoint count_from (sub : string) (skip : nat) (s : string) : Z :=
  match s with
  | EmptyString => 0
  | String _ s' =>
      match skip with
      | S k => count_from sub k s'
      | O =>
          if String.prefix sub s
          then 1 + count_from sub (String.length sub - 1) s'
          else count_from sub 0 s'
      end
  end.

Definition count (s sub : string) : Z := count_from sub 0 s.

(** [sum(p(c) for c in s)] for a character predicate [p]. *)
Fixpoint count_if (p : ascii -> bool) (s : string) : Z :=
  match s with
  | EmptyString => 0
  | String c s' => (if p c then 1 else 0) + count_if p s'
  end.

(** [len(s)] *)
Definition len (s : string) : Z := Z.of_nat (String.length s).

(** [s.split(sep)[0]] for a one-character [sep]: the text before the first
    separator, the whole text when there is none. *)
Fixpoint before (sep : ascii) (s : string) : string :=
  match s with
  | EmptyString => EmptyString
  | String c s' => if Ascii.eqb c sep then EmptyString else String c (before sep s')
  end.

(** [len(s.split(sep))] for a one-character [sep]. *)
Definition split_len (sep : ascii) (s : string) : Z :=
  1 + count_if (Ascii.eqb sep) s.

(** [all(p(c) for c in s)] *)
Fixpoint all_chars (p : ascii -> bool) (s : string) : bool :=
  match s with
  | EmptyString => true
  | String c s' => p c && all_chars p s'
  end.

(** [s[-1]] when [s] is not empty *)
Fixpoint last_char (s : string) : option ascii :=
  match s with
  | EmptyString => None
  | String c EmptyString => Some c
  | String _ s' => last_char s'
  end.

End PyStr.

(** ** The normalizer and the keyword counter (feature_extractor.py) *)

Definition has_http_prefix (s : string) : bool :=
  PyStr.startswith s "http://" || PyStr.startswith s "https://".

Definition _normalize_url (url : string) : string :=
  let url := PyStr.strip url in
  if negb (has_http_prefix url) then "http://" ++ url else url.

Definition suspicious_words : list string :=
  [ "login"; "secure"; "signin"; "verify"; "update";
    "account"; "bank"; "payment"; "confirm"; "invoice";
    "paypal"; "security"; "webscr"; "password" ].

(** [sum(1 for w in ws if w in text)] *)
Fixpoint sum_matches (text : string) (ws : list string) : Z :=
  match ws with
  | [] => 0
  | w :: ws' =>
      if PyStr.contains w text then 1 + sum_matches text ws'
      else sum_matches text ws'
  end.

Definition _count_suspicious_keywords (url : string) : Z :=
  let text := PyStr.lower url in
  sum_matches text suspicious_words.

(** ** Exceptions and effects

    [exn] lists the [Exception] classes the library calls of the program
    raise; every handler of the program is [except Exception], which catches
    all of them. *)

Inductive exn : Type :=
| ValueError        (* urllib.parse: malformed network location *)
| TypeError         (* an operand of the wrong type *)
| IndexError        (* subscript of an empty list *)
| OSError           (* socket errors: refused, unreachable, timed out, DNS *)
| SSLError          (* handshake or certificate verification failure *)
| RequestException  (* any error of the HTTP client *)
| PywhoisError.     (* registry query failure *)

Inductive Exc (A : Type) : Type :=
| Returned (a : A)
| Raised (e : exn).
Arguments Returned {A} a.
Arguments Raised {A} e.

(** The calls that leave the process, in the order they were made: those of
    the three probes, of the classifier and of the database.  The domain
    parser's loading of its public-suffix list, which may go to the network on
    first use, is not among them. *)
Inductive event : Type :=
| WhoisQuery (domain : string)
| TcpConnect (domain : string)
| TlsHandshake (domain : string)
| HttpGet (url : string)
| Classify (features : list Z)
| DbCommit (url : string).

(** A computation reads the log so far and returns a value or an exception
    together with the extended log. *)
Definition M (A : Type) : Type := list event -> Exc A * list event.

Definition ret {A} (a : A) : M A := fun log => (Returned a, log).

Definition bind {A B} (m : M A) (k : A -> M B) : M B :=
  fun log =>
    match m log with
    | (Returned a, log') => k a log'
    | (Raised e, log') => (Raised e, log')
    end.

(** A pure library call that may raise. *)
Definition lift {A} (x : Exc A) : M A := fun log => (x, log).

(** A call that leaves the process: it is logged, then gives its outcome. *)
Definition call {A} (ev : event) (outcome : Exc A) : M A :=
  fun log => (outcome, (log ++ [ev])%list).

(** [try: body  except Exception: handler] *)
Definition try_except {A} (body : M A) (handler : M A) : M A :=
  fun log =>
    match body log with
    | (Returned a, log') => (Returned a, log')
    | (Raised _, log') => handler log'
    end.

Declare Scope py_scope.
Delimit Scope py_scope with py.
Notation "x <- m ;; k" := (bind m (fun x => k))
  (at level 61, m at next level, right associativity) : py_scope.
#[local] Open Scope py_scope.

(** Unfolds the plumbing of a computation down to the library calls. *)
Ltac run :=
  unfold bind, lift, call, ret, try_except; cbn beta iota.

(** ** Values the registry client returns *)

(** A [datetime]: [wall] is the reading of its calendar fields, counted in
    microseconds; [tzinfo] is its offset from UTC when it carries one. *)
Record datetime : Type := { wall : Z; tzinfo : option Z }.

#[warnings="-register-all"]
Inductive pyval : Type :=
| PyNone
| PyStr (s : string)
| PyDatetime (d : datetime)
| PyList (items : list pyval).

(** [bool(v)] *)
Definition truthy (v : pyval) : bool :=
  match v with
  | PyNone => false
  | PyStr s => negb (String.eqb s "")
  | PyDatetime _ => true
  | PyList items => match items with [] => false | _ => true end
  end.

(** [items[0]] *)
Definition getitem0 (items : list pyval) : Exc pyval :=
  match items with
  | [] => Raised IndexError
  | v :: _ => Returned v
  end.

(** [v.replace(tzinfo=None)]: the calendar fields are kept. *)
Definition replace_tzinfo_none (v : pyval) : pyval :=
  match v with
  | PyDatetime d => PyDatetime {| wall := wall d; tzinfo := None |}
  | _ => v
  end.

(** [hasattr(v, "tzinfo") and v.tzinfo is not None] *)
Definition has_tzinfo (v : pyval) : bool :=
  match v with
  | PyDatetime d => match tzinfo d with Some _ => true | None => false end
  | _ => false
  end.

Definition microseconds_per_day : Z := 86400 * 1000000.

(** [now - v] where [now] is the naive [datetime] with reading [now]; the
    result is a [timedelta], counted in microseconds.  Anything but a naive
    [datetime] on the right raises [TypeError]. *)
Definition datetime_sub (now : Z) (v : pyval) : Exc Z :=
  match v with
  | PyDatetime d =>
      match tzinfo d with
      | None => Returned (now - wall d)
      | Some _ => Raised TypeError
      end
  | _ => Raised TypeError
  end.

(** [delta.days]: a [timedelta] is normalised with its seconds and
    microseconds non-negative, so [days] rounds towards minus infinity. *)
Definition days (delta : Z) : Z := delta / microseconds_per_day.

(** [w.key] on the registry entry [w], a [dict] whose attributes read its
    keys; a key that is missing reads as [None]. *)
Fixpoint dict_get (d : list (string * pyval)) (key : string) : pyval :=
  match d with
  | [] => PyNone
  | (k, v) :: d' => if String.eqb k key then v else dict_get d' key
  end.

(** The instant a [datetime] denotes, as the specification reads a creation
    date ("normalizes to UTC"): the calendar reading less the offset; a
    naive [datetime] is taken as UTC. *)
Definition utc_instant (d : datetime) : Z :=
  match tzinfo d with
  | Some offset => wall d - offset
  | None => wall d
  end.

(** [q] is the number of whole days in [delta] microseconds. *)
Definition whole_days (delta q : Z) : Prop :=
  q * 86400000000 <= delta < (q + 1) * 86400000000.

(** ** The collaborators

    What the program imports and does not define: the URL and domain parsers,
    the registry, socket, TLS and HTTP clients, the clock, and the fitted
    scaler and model.  Each is a function of its arguments, so a call that
    is repeated gets the answer it got before. *)

Record ParseResult : Type := { scheme : string; netloc : string; path : string }.

Record ExtractResult : Type := { subdomain : string; domain : string; suffix : string }.

Record Response : Type := { status_code : Z; history : list Z }.

Record World : Type := {
  (** [urllib.parse.urlparse] *)
  urlparse : string -> Exc ParseResult;
  (** [tldextract.extract] *)
  tldextract_extract : string -> ExtractResult;
  (** [whois.whois] *)
  whois_whois : string -> Exc (list (string * pyval));
  (** [datetime.datetime.utcnow()]: the reading of the naive result *)
  utcnow : Z;
  (** [socket.create_connection((domain, 443), timeout=5)] *)
  create_connection : string -> Exc unit;
  (** [context.wrap_socket(sock, server_hostname=domain)] *)
  wrap_socket : string -> Exc unit;
  (** [ssock.getpeercert()] *)
  getpeercert : string -> Exc (option (list (string * string)));
  (** [requests.get(url, timeout=5, allow_redirects=True)] *)
  requests_get : string -> Exc Response;
  (** [model.predict(scaler.transform([features]))[0]] *)
  model_predict : list Z -> Z
}.

(** ** The program (feature_extractor.py) *)

Record OSINTRecord : Type := {
  osint_domain : string;
  https : Z;
  domain_age_days : Z;
  ssl_valid : Z;
  redirects : Z;
  suspicious_keywords : Z;
  subdomain_count : Z
}.

(** The [while len(features) < 30: features.append(0)] loop; [fuel] bounds
    the number of iterations. *)
Fixpoint pad_loop (fuel : nat) (features : list Z) : list Z :=
  match fuel with
  | O => features
  | S fuel' =>
      if Z.of_nat (List.length features) <? 30
      then pad_loop fuel' (features ++ [0])%list
      else features
  end.

(** ** Verdicts and the hybrid tweaks (app.py) *)

Inductive Verdict : Type := Legitimate | Phishing.

(** The two [if] statements of [predict] ("simple hybrid tweaks"): the
    condition and the assignment of each, applied in the order of the
    source. *)
Definition legitimate_guard (osint : OSINTRecord) : bool :=
  (https osint =? 1) && (ssl_valid osint =? 1) && (suspicious_keywords osint =? 0).

Definition phishing_guard (osint : OSINTRecord) : bool :=
  (https osint =? 0) && (ssl_valid osint =? 0) && (suspicious_keywords osint >=? 2).

Definition tweak_legitimate (osint : OSINTRecord) (result : Verdict) : Verdict :=
  if legitimate_guard osint then Legitimate else result.

Definition tweak_phishing (osint : OSINTRecord) (result : Verdict) : Verdict :=
  if phishing_guard osint then Phishing else result.

Definition hybrid_tweaks (result : Verdict) (osint : OSINTRecord) : Verdict :=
  let result := tweak_legitimate osint result in
  let result := tweak_phishing osint result in
  result.

(** [x or ""] for an optional string [x] *)
Definition or_empty (x : option string) : string :=
  match x with
  | Some s => s
  | None => ""
  end.

Inductive Reply : Type :=
| Page (url : string) (result : Verdict) (osint : OSINTRecord)
| Json (url : string) (result : Verdict) (osint : OSINTRecord)
| BadRequest (error : string).

Section Program.

Variable W : World.

Definition _get_domain (url : string) : M string :=
  let url := _normalize_url url in
  parsed <- lift (urlparse W url) ;;
  let domain := PyStr.before ":" (netloc parsed) in
  ret (PyStr.lower domain).

(** The probes.  Each is one [try] block with [except Exception: return 0];
    the block is given first, the probe wraps it. *)
Definition domain_age_block (domain : string) : M Z :=
  w <- call (WhoisQuery domain) (whois_whois W domain) ;;
  let creation_date := dict_get w "creation_date" in
  creation_date <-
    match creation_date with
    | PyList items => lift (getitem0 items)
    | _ => ret creation_date
    end ;;
  if negb (truthy creation_date) then ret 0
  else
    let creation_date :=
      if has_tzinfo creation_date
      then replace_tzinfo_none creation_date
      else creation_date in
    delta <- lift (datetime_sub (utcnow W) creation_date) ;;
    let age := days delta in
    ret (Z.max age 0).

Definition _get_domain_age_days (domain : string) : M Z :=
  try_except (domain_age_block domain) (ret 0).

Definition valid_ssl_block (domain : string) : M Z :=
  _ <- call (TcpConnect domain) (create_connection W domain) ;;
  _ <- call (TlsHandshake domain) (wrap_socket W domain) ;;
  cert <- lift (getpeercert W domain) ;;
  ret (match cert with
       | Some (_ :: _) => 1
       | _ => 0
       end).

Definition _has_valid_ssl (domain : string) : M Z :=
  try_except (valid_ssl_block domain) (ret 0).

Definition redirect_count_block (url : string) : M Z :=
  let url := _normalize_url url in
  resp <- call (HttpGet url) (requests_get W url) ;;
  ret (Z.of_nat (List.length (history resp))).

Definition _get_redirect_count (url : string) : M Z :=
  try_except (redirect_count_block url) (ret 0).

Definition get_osint_details (url : string) : M OSINTRecord :=
  let norm_url := _normalize_url url in
  parsed <- lift (urlparse W norm_url) ;;
  domain <- _get_domain url ;;
  let ext := tldextract_extract W norm_url in
  let https_flag := if String.eqb (scheme parsed) "https" then 1 else 0 in
  domain_age <- _get_domain_age_days domain ;;
  ssl_valid <- _has_valid_ssl domain ;;
  redirects <- _get_redirect_count url ;;
  let suspicious_count := _count_suspicious_keywords url in
  let subdomain_count :=
    if negb (String.eqb (subdomain ext) "")
    then PyStr.split_len "." (subdomain ext)
    else 0 in
  ret {| osint_domain := domain;
         https := https_flag;
         domain_age_days := domain_age;
         ssl_valid := ssl_valid;
         redirects := redirects;
         suspicious_keywords := suspicious_count;
         subdomain_count := subdomain_count |}.

Definition extract_features (url : string) : M (list Z) :=
  let norm_url := _normalize_url url in
  parsed <- lift (urlparse W norm_url) ;;
  domain <- _get_domain url ;;
  let ext := tldextract_extract W norm_url in
  osint <- get_osint_details url ;;
  let features :=
    [ PyStr.len norm_url;
      PyStr.count norm_url ".";
      (if PyStr.contains "@" norm_url then 1 else 0);
      PyStr.count norm_url "//";
      PyStr.count norm_url "-";
      PyStr.count norm_url "?";
      PyStr.count norm_url "=";
      PyStr.count_if PyStr.isdigit norm_url;
      PyStr.count_if PyStr.isalpha norm_url;
      PyStr.len (suffix ext);
      PyStr.len domain;
      PyStr.len (path parsed);
      https osint;
      domain_age_days osint;
      ssl_valid osint;
      redirects osint;
      suspicious_keywords osint;
      subdomain_count osint ] in
  let features := pad_loop 30 features in
  ret (firstn 30 features).

(** ** The scan handlers (app.py) *)

(** [scaler.transform], [model.predict] and the reading of the label. *)
Definition classify (features : list Z) : M Verdict :=
  pred <- call (Classify features) (Returned (model_predict W features)) ;;
  ret (if pred =? 1 then Legitimate else Phishing).

(** [POST /predict] for a logged-in user; the argument is
    [request.form.get("url")].  Storing the scan is one logged call. *)
Definition predict (form_url : option string) : M Reply :=
  let url := PyStr.strip (or_empty form_url) in
  features <- extract_features url ;;
  result <- classify features ;;
  osint <- get_osint_details url ;;
  let result := hybrid_tweaks result osint in
  _ <- call (DbCommit url) (Returned tt) ;;
  ret (Page url result osint).

(** [POST /api/scan]; the argument is [data.get("url")] of the JSON body,
    [None] when the body or the key is missing.  A [url] that is not a
    string is outside the model. *)
Definition api_scan (json_url : option string) : M Reply :=
  let url := PyStr.strip (or_empty json_url) in
  if String.eqb url "" then ret (BadRequest "url field is required")
  else
    feats <- extract_features url ;;
    result <- classify feats ;;
    osint <- get_osint_details url ;;
    ret (Json url result osint).

End Program.

(** The calls one run of [get_osint_details] makes for a URL whose host is
    [d], in order; used to state what the handlers send out. *)
Definition tcp_connected (W : World) (d : string) : bool :=
  match create_connection W d with
  | Returned _ => true
  | Raised _ => false
  end.

Definition osint_calls (W : World) (url d : string) : list event :=
  ([WhoisQuery d; TcpConnect d]
   ++ (if tcp_connected W d then [TlsHandshake d] else [])
   ++ [HttpGet (_normalize_url url)])%list.

(** One round of the probes for the host [d]: the registry query, the TCP
    connection, the TLS handshake when [handshake] holds, the HTTP request. *)
Definition probe_round (d url : string) (handshake : bool) : list event :=
  ([WhoisQuery d; TcpConnect d]
   ++ (if handshake then [TlsHandshake d] else [])
   ++ [HttpGet (_normalize_url url)])%list.

(** A computation is uniform when its outcome and the calls it adds do not
    depend on the log it starts from. *)
Definition uniform {A : Type} (m : M A) : Prop :=
  exists (r : Exc A) (calls : list event),
    forall log, m log = (r, (log ++ calls)%list).

(** ** Two instances of the collaborators

    [offline] is a host with no network: every registry, socket and HTTP call
    raises.  [online] reaches a site registered 1000 days ago that presents a
    certificate and redirects once.  Both split a URL into scheme, network
    location and path the way [urllib.parse.urlparse] does on a text without
    tab or newline, with its [ValueError] on an unmatched square bracket in
    the network location, and split host names against a public-suffix list
    that holds [com] only. *)

(** The text before the first character satisfying [stop], and the text from
    that character on. *)
Fixpoint break_at (stop : ascii -> bool) (s : string) : string * string :=
  match s with
  | EmptyString => (EmptyString, EmptyString)
  | String c s' =>
      if stop c then (EmptyString, s)
      else let (a, b) := break_at stop s' in (String c a, b)
  end.

Definition is_char (c : ascii) : ascii -> bool := Ascii.eqb c.

Definition scheme_char (c : ascii) : bool :=
  PyStr.between 97 122 c || PyStr.between 65 90 c || PyStr.between 48 57 c
  || is_char "+" c || is_char "-" c || is_char "." c.

Definition tail (s : string) : string :=
  match s with
  | EmptyString => EmptyString
  | String _ s' => s'
  end.

(** The scheme and what follows its colon; no scheme when the text before
    the first colon is empty, does not start with a letter, or holds a
    character no scheme has. *)
Definition split_scheme (url : string) : string * string :=
  let (head, rest) := break_at (is_char ":") url in
  match head, rest with
  | String c _, String _ rest' =>
      if (PyStr.between 97 122 c || PyStr.between 65 90 c) && PyStr.all_chars scheme_char head
      then (PyStr.lower head, rest')
      else (EmptyString, url)
  | _, _ => (EmptyString, url)
  end.

(** The path without its parameters: cut at the first [;] of the last
    segment. *)
Fixpoint cut_params (s : string) : string :=
  match s with
  | EmptyString => EmptyString
  | String c s' =>
      if PyStr.contains "/" s' then String c (cut_params s')
      else PyStr.before ";" s
  end.

Definition urllib_urlparse (url : string) : Exc ParseResult :=
  let (scheme, url) := split_scheme url in
  let (netloc, url) :=
    if PyStr.startswith url "//"
    then break_at (fun c => is_char "/" c || is_char "?" c || is_char "#" c)
                  (tail (tail url))
    else (EmptyString, url) in
  if xorb (PyStr.contains "[" netloc) (PyStr.contains "]" netloc)
  then Raised ValueError
  else
    let url := PyStr.before "#" url in
    let url := PyStr.before "?" url in
    Returned {| scheme := scheme; netloc := netloc; path := cut_params url |}.

(** The text before the last separator, when there is one, and the text
    after it. *)
Fixpoint rsplit1 (sep : ascii) (s : string) : option string * string :=
  match s with
  | EmptyString => (None, EmptyString)
  | String c s' =>
      match rsplit1 sep s' with
      | (Some a, b) => (Some (String c a), b)
      | (None, b) => if Ascii.eqb c sep then (Some EmptyString, b) else (None, String c b)
      end
  end.

Definition extract_com (url : string) : ExtractResult :=
  let host :=
    match urllib_urlparse url with
    | Returned p => PyStr.lower (PyStr.before ":" (netloc p))
    | Raised _ => EmptyString
    end in
  match rsplit1 "." host with
  | (Some init, last) =>
      if String.eqb last "com"
      then match rsplit1 "." init with
           | (Some sub, dom) => {| subdomain := sub; domain := dom; suffix := last |}
           | (None, dom) => {| subdomain := ""; domain := dom; suffix := last |}
           end
      else {| subdomain := init; domain := last; suffix := "" |}
  | (None, last) => {| subdomain := ""; domain := last; suffix := "" |}
  end.

Definition offline : World := {|
  urlparse := urllib_urlparse;
  tldextract_extract := extract_com;
  whois_whois := fun _ => Raised PywhoisError;
  utcnow := 20000 * microseconds_per_day + 5;
  create_connection := fun _ => Raised OSError;
  wrap_socket := fun _ => Raised SSLError;
  getpeercert := fun _ => Returned None;
  requests_get := fun _ => Raised RequestException;
  model_predict := fun _ => 0
|}.

Definition online : World := {|
  urlparse := urllib_urlparse;
  tldextract_extract := extract_com;
  whois_whois := fun d =>
    Returned [ ("domain_name", PyStr d);
               ("creation_date",
                PyList [ PyDatetime {| wall := 19000 * microseconds_per_day; tzinfo := None |};
                         PyDatetime {| wall := 19001 * microseconds_per_day; tzinfo := None |} ]) ];
  utcnow := 20000 * microseconds_per_day + 5;
  create_connection := fun _ => Returned tt;
  wrap_socket := fun _ => Returned tt;
  getpeercert := fun d => Returned (Some [ ("subject", d) ]);
  requests_get := fun _ => Returned {| status_code := 200; history := [301] |};
  model_predict := fun _ => 1
|}.




(** ** Accounts, sessions and stored scans (app.py)

    The two tables are lists of rows in insertion order; a query is a filter
    over the list.  The rows the program inserts hold a value in every
    column.  A session is the user id the login manager keeps, if any.  What
    the routes hand to a template or send back is a [View]. *)

Module User.
Record t : Type := {
  id : Z;
  email : string;
  password_hash : string;
  created_at : Z
}.
End User.

Module Scan.
Record t : Type := {
  id : Z;
  user_id : Z;
  url : string;
  result : string;
  domain : string;
  https : Z;
  ssl_valid : Z;
  domain_age_days : Z;
  redirects : Z;
  suspicious_keywords : Z;
  subdomain_count : Z;
  created_at : Z
}.
End Scan.

Record Database : Type := { users : list User.t; scans : list Scan.t }.

Definition Session : Type := option Z.

Inductive method : Type := GET | POST.

Inductive endpoint : Type := ep_login | ep_register | ep_dashboard.

Inductive color : Type := GREEN | ORANGE | RED.

Record Stats : Type := {
  total : Z;
  phish : Z;
  legit : Z;
  phish_rate : Z;
  last_scan : option string
}.

Inductive View : Type :=
| RedirectTo (target : endpoint) (flashed : option (string * string))
| LoginPage (mode : string)
| IndexPage (history : list Scan.t) (stats : Stats)
| NotFound
| Report (scan : Scan.t) (badge : color) (overall : Z) (meter : color).

(** The primary key of a new row: one more than the largest key in use. *)
Definition next_id (ids : list Z) : Z := 1 + fold_right Z.max 0 ids.

(** [load_user]: [User.query.get(int(user_id))] *)
Definition load_user (db : Database) (user_id : Z) : option User.t :=
  find (fun u => User.id u =? user_id) (users db).

(** [current_user]: the row of the session's user, when there is one. *)
Definition current_user (db : Database) (session : Session) : option User.t :=
  match session with
  | Some user_id => load_user db user_id
  | None => None
  end.

(** [current_user.is_authenticated] *)
Definition is_authenticated (db : Database) (session : Session) : bool :=
  match current_user db session with
  | Some _ => true
  | None => false
  end.

(** What [@login_required] answers to a visitor who is not logged in: the
    login manager's message and a redirect to [login_view]. *)
Definition unauthorized : View :=
  RedirectTo ep_login (Some ("Please log in to access this page.", "message")).

(** [User.query.filter_by(email=email).first()] *)
Definition user_by_email (db : Database) (email : string) : option User.t :=
  find (fun u => String.eqb (User.email u) email) (users db).

(** [Scan.query.filter_by(user_id=user_id)] *)
Definition scans_of (db : Database) (user_id : Z) : list Scan.t :=
  filter (fun s => Scan.user_id s =? user_id) (scans db).

(** [Scan.query.filter_by(user_id=user_id, result=result)] *)
Definition scans_with (db : Database) (user_id : Z) (result : string) : list Scan.t :=
  filter (fun s => (Scan.user_id s =? user_id) && String.eqb (Scan.result s) result)
         (scans db).

(** The colours of the report (download_report): the verdict badge, the
    overall score and the colour of a score on the meter and the bars. *)
Definition verdict_color (result : string) : color :=
  if String.eqb result "Legitimate" then GREEN else RED.

Definition overall_risk (result : string) : Z :=
  if String.eqb result "Legitimate" then 20 else 80.

Definition severity (score : Z) : color :=
  if score <=? 30 then GREEN else if score <=? 60 then ORANGE else RED.

Section App.

(** [werkzeug.security]: the hash of a password under a salt (the library
    draws the salt), and the check of a password against a hash. *)
Variable generate_password_hash : string -> string -> string.
Variable check_password_hash : string -> string -> bool.

(** [.order_by(Scan.created_at.desc())] of the database engine. *)
Variable order_by_created_at_desc : list Scan.t -> list Scan.t.

(** [int((phish / total) * 100)], a floating-point computation, and
    [created_at.strftime("%Y-%m-%d %H:%M")]. *)
Variable percent : Z -> Z -> Z.
Variable strftime : Z -> string.

(** [/register]; [salt] is the salt the hash draws and [now] the clock. *)
Definition register (db : Database) (session : Session) (m : method)
    (form_email form_password : option string) (salt : string) (now : Z)
    : View * Database :=
  if is_authenticated db session then (RedirectTo ep_dashboard None, db)
  else
    match m with
    | POST =>
        let email := PyStr.lower (PyStr.strip (or_empty form_email)) in
        let password := PyStr.strip (or_empty form_password) in
        if String.eqb email "" || String.eqb password ""
        then (RedirectTo ep_register
                (Some ("Email and password are required.", "error")), db)
        else
          match user_by_email db email with
          | Some _ =>
              (RedirectTo ep_login (Some ("User already exists.", "error")), db)
          | None =>
              let user :=
                {| User.id := next_id (map User.id (users db));
                   User.email := email;
                   User.password_hash := generate_password_hash salt password;
                   User.created_at := now |} in
              (RedirectTo ep_login
                 (Some ("Registration successful. Please login.", "success")),
               {| users := (users db ++ [user])%list; scans := scans db |})
          end
    | GET => (LoginPage "register", db)
    end.

(** [/login] *)
Definition login (db : Database) (session : Session) (m : method)
    (form_email form_password : option string) : View * Session :=
  if is_authenticated db session then (RedirectTo ep_dashboard None, session)
  else
    match m with
    | POST =>
        let email := PyStr.lower (PyStr.strip (or_empty form_email)) in
        let password := PyStr.strip (or_empty form_password) in
        match user_by_email db email with
        | Some user =>
            if negb (check_password_hash (User.password_hash user) password)
            then (RedirectTo ep_login
                    (Some ("Invalid email or password.", "error")), session)
            else (RedirectTo ep_dashboard None, Some (User.id user))
        | None =>
            (RedirectTo ep_login
               (Some ("Invalid email or password.", "error")), session)
        end
    | GET => (LoginPage "login", session)
    end.

(** [/logout] *)
Definition logout (db : Database) (session : Session) : View * Session :=
  if is_authenticated db session then (RedirectTo ep_login None, None)
  else (unauthorized, session).

(** [/] *)
Definition home (db : Database) (session : Session) : View :=
  if is_authenticated db session then RedirectTo ep_dashboard None
  else RedirectTo ep_login None.

Definition get_user_stats (db : Database) (user_id : Z) : Stats :=
  let total := Z.of_nat (List.length (scans_of db user_id)) in
  let phish := Z.of_nat (List.length (scans_with db user_id "Phishing")) in
  let legit := Z.of_nat (List.length (scans_with db user_id "Legitimate")) in
  let last_scan_obj :=
    match order_by_created_at_desc (scans_of db user_id) with
    | [] => None
    | s :: _ => Some s
    end in
  let phish_rate := if negb (total =? 0) then percent phish total else 0 in
  {| total := total;
     phish := phish;
     legit := legit;
     phish_rate := phish_rate;
     last_scan :=
       match last_scan_obj with
       | Some s => Some (strftime (Scan.created_at s))
       | None => None
       end |}.

(** [/dashboard] *)
Definition dashboard (db : Database) (session : Session) : View :=
  match current_user db session with
  | None => unauthorized
  | Some user =>
      let history :=
        firstn 10 (order_by_created_at_desc (scans_of db (User.id user))) in
      let stats := get_user_stats db (User.id user) in
      IndexPage history stats
  end.

(** [/report/<scan_id>/pdf]: the lookup of the scan and, of the drawing,
    the verdict badge and the overall risk meter. *)
Definition download_report (db : Database) (session : Session) (scan_id : Z) : View :=
  match current_user db session with
  | None => unauthorized
  | Some user =>
      match find (fun s => (Scan.id s =? scan_id) && (Scan.user_id s =? User.id user))
                 (scans db) with
      | None => NotFound
      | Some scan =>
          let verdict_color := verdict_color (Scan.result scan) in
          let overall_risk := overall_risk (Scan.result scan) in
          Report scan verdict_color overall_risk (severity overall_risk)
      end
  end.

End App.

(** The user table as [register] keeps it: keys and addresses are distinct,
    and every address is non-empty, trimmed and lower-case. *)
Definition normalized_email (e : string) : Prop :=
  e <> "" /\ PyStr.lower (PyStr.strip e) = e.

Definition well_formed (db : Database) : Prop :=
  NoDup (map User.id (users db))
  /\ NoDup (map User.email (users db))
  /\ Forall (fun u => normalized_email (User.email u)) (users db).

(** What is asked of the database engine's [ORDER BY created_at DESC]: the
    same rows, no row before a newer one; rows of equal time in any order. *)
Definition newer_first (a b : Scan.t) : Prop :=
  Scan.created_at b <= Scan.created_at a.

Definition sorts_newest_first (order : list Scan.t -> list Scan.t) : Prop :=
  (forall l, Permutation l (order l))
  /\ (forall l, StronglySorted newer_first (order l)).

(** ** Instances for the accounts and the stored scans

    A salted hash that keeps the password in clear after the salt, an
    insertion sort, and a small database: one user with three scans and a
    scan of somebody else. *)

Definition clear_hash (salt password : string) : string :=
  salt ++ "$" ++ password.

Definition clear_check (pwhash password : string) : bool :=
  String.eqb (tail (snd (break_at (is_char "$") pwhash))) password.

Fixpoint insert_newer (s : Scan.t) (l : list Scan.t) : list Scan.t :=
  match l with
  | [] => [s]
  | x :: l' =>
      if Scan.created_at x <=? Scan.created_at s then s :: l
      else x :: insert_newer s l'
  end.

Definition insertion_order (l : list Scan.t) : list Scan.t :=
  fold_right insert_newer [] l.

Definition sample_scan (id user_id : Z) (result : string) (created_at : Z) : Scan.t :=
  {| Scan.id := id; Scan.user_id := user_id; Scan.url := "http://example.com";
     Scan.result := result; Scan.domain := "example.com"; Scan.https := 0;
     Scan.ssl_valid := 0; Scan.domain_age_days := 0; Scan.redirects := 0;
     Scan.suspicious_keywords := 0; Scan.subdomain_count := 0;
     Scan.created_at := created_at |}.

Definition sample_db : Database :=
  {| users := [ {| User.id := 1; User.email := "alice@example.com";
                   User.password_hash := clear_hash "s1" "wonderland";
                   User.created_at := 10 |} ];
     scans := [ sample_scan 1 1 "Phishing" 20;
                sample_scan 2 2 "Legitimate" 25;
                sample_scan 3 1 "Legitimate" 40;
                sample_scan 4 1 "Phishing" 30 ] |}.

(** * Properties *)

(** ** Strings *)

Lemma prefix_append (p s : string) : String.prefix p (p ++ s) = true.
Proof.
  induction p as [|c p IH]; simpl.
  - now destruct s.
  - destruct (ascii_dec c c) as [_|ne]; [exact IH | now elim ne].
Qed.

Lemma lstrip_split (s : string) :
  exists a, s = a ++ PyStr.lstrip s /\ PyStr.all_chars PyStr.isspace a = true.
Proof.
  induction s as [|c s [a [E Ha]]]; simpl.
  - now exists "".
  - destruct (PyStr.isspace c) eqn:Hc.
    + exists (String c a). simpl. rewrite Hc, Ha. split; [now f_equal | reflexivity].
    + now exists "".
Qed.

Lemma rstrip_split (s : string) :
  exists b, s = PyStr.rstrip s ++ b /\ PyStr.all_chars PyStr.isspace b = true.
Proof.
  induction s as [|c s [b [E Hb]]]; simpl.
  - now exists "".
  - destruct (PyStr.rstrip s) as [|c' r] eqn:R.
    + simpl in E. subst b. destruct (PyStr.isspace c) eqn:Hc.
      * exists (String c s). simpl. now rewrite Hc, Hb.
      * now exists s.
    + exists b. split; [|exact Hb]. simpl. f_equal. exact E.
Qed.

(** [strip] removes a run of whitespace at each end and nothing else. *)
Lemma strip_split (s : string) :
  exists a b, s = a ++ PyStr.strip s ++ b
              /\ PyStr.all_chars PyStr.isspace a = true
              /\ PyStr.all_chars PyStr.isspace b = true.
Proof.
  destruct (lstrip_split s) as [a [Ea Ha]].
  destruct (rstrip_split (PyStr.lstrip s)) as [b [Eb Hb]].
  exists a, b. unfold PyStr.strip. now rewrite <- Eb.
Qed.

Lemma lstrip_head (s : string) :
  match PyStr.lstrip s with
  | String c _ => PyStr.isspace c = false
  | EmptyString => True
  end.
Proof.
  induction s as [|c s IH]; simpl; [exact I|].
  destruct (PyStr.isspace c) eqn:Hc; [exact IH | exact Hc].
Qed.

(** A text that neither starts nor ends with whitespace is left as it is. *)
Lemma rstrip_id (s : string) :
  match PyStr.last_char s with Some c => PyStr.isspace c = false | None => True end ->
  PyStr.rstrip s = s.
Proof.
  induction s as [|c s IH]; simpl; [reflexivity|].
  destruct s as [|c' s'].
  - simpl. now intros ->.
  - intros H. rewrite (IH H). reflexivity.
Qed.

Lemma strip_id (s : string) :
  match s with String c _ => PyStr.isspace c = false | EmptyString => True end ->
  match PyStr.last_char s with Some c => PyStr.isspace c = false | None => True end ->
  PyStr.strip s = s.
Proof.
  intros Hh Hl. unfold PyStr.strip.
  assert (E : PyStr.lstrip s = s).
  { destruct s as [|c s']; [reflexivity|]. simpl. now rewrite Hh. }
  rewrite E. now apply rstrip_id.
Qed.

(** ** The keyword counter *)

Lemma sum_matches_count (text : string) (ws : list string) :
  sum_matches text ws
  = Z.of_nat (List.length (filter (fun w => PyStr.contains w text) ws)).
Proof.
  induction ws as [|w ws IH]; cbn [sum_matches filter]; [reflexivity|].
  destruct (PyStr.contains w text); [|exact IH].
  cbn [List.length]. rewrite IH. lia.
Qed.

Lemma sum_matches_bounds (text : string) (ws : list string) :
  0 <= sum_matches text ws <= Z.of_nat (List.length ws).
Proof.
  rewrite sum_matches_count.
  pose proof (filter_length_le (fun w => PyStr.contains w text) ws). lia.
Qed.

Lemma prefix_split (p s : string) :
  String.prefix p s = true <-> exists b, s = p ++ b.
Proof.
  split.
  - revert s. induction p as [|c p IH]; intros s H.
    + now exists s.
    + destruct s as [|c' s']; simpl in H; [discriminate|].
      destruct (ascii_dec c c') as [->|]; [|discriminate].
      destruct (IH _ H) as [b ->]. now exists b.
  - intros [b ->]. apply prefix_append.
Qed.

(** [contains] is the substring relation. *)
Lemma contains_split (sub s : string) :
  PyStr.contains sub s = true <-> exists a b, s = a ++ sub ++ b.
Proof.
  split.
  - induction s as [|c s IH]; cbn [PyStr.contains]; rewrite orb_true_iff;
      intros [H|H].
    + apply prefix_split in H as [b E]. now exists "", b.
    + discriminate.
    + apply prefix_split in H as [b E]. now exists "", b.
    + destruct (IH H) as [a [b ->]]. now exists (String c a), b.
  - intros [a [b ->]]. induction a as [|c a IH].
    + cbn [append]. assert (P : String.prefix sub (sub ++ b) = true)
        by apply prefix_append.
      destruct (sub ++ b); cbn [PyStr.contains]; now rewrite P.
    + cbn [append PyStr.contains]. rewrite IH. apply orb_true_r.
Qed.

Lemma suspicious_words_distinct : NoDup suspicious_words.
Proof.
  unfold suspicious_words.
  repeat (constructor; [simpl; intuition discriminate|]). constructor.
Qed.

(** C1 (as stated, refuted): on the scenario URL the counter does not return
    5; six of the listed words occur in it. *)
Lemma scenario_keyword_count_is_not_5 :
  _count_suspicious_keywords
    "http://secure-login-verify-paypal.badsite.test/account/confirm" <> 5.
Proof. vm_compute. discriminate. Qed.

(** C1 (amended): on the scenario URL the counter returns 6, one for each of
    [login], [secure], [verify], [account], [confirm] and [paypal], the
    listed words that occur in the text. *)
Theorem scenario_keyword_count :
  let url := "http://secure-login-verify-paypal.badsite.test/account/confirm" in
  _count_suspicious_keywords url = 6
  /\ filter (fun w => PyStr.contains w (PyStr.lower url)) suspicious_words
     = ["login"; "secure"; "verify"; "account"; "confirm"; "paypal"].
Proof. split; vm_compute; reflexivity. Qed.

(** C9: the keyword count is at most 14 (and at least 0): it is the number of
    listed words, all distinct, that occur in the lowered text, so a word
    adds one however often it occurs. *)
Theorem keyword_count_at_most_14 (url : string) :
  0 <= _count_suspicious_keywords url <= 14
  /\ _count_suspicious_keywords url
     = Z.of_nat (List.length (filter (fun w => PyStr.contains w (PyStr.lower url))
                                     suspicious_words))
  /\ NoDup suspicious_words.
Proof.
  unfold _count_suspicious_keywords. split; [|split].
  - apply (sum_matches_bounds (PyStr.lower url) suspicious_words).
  - apply sum_matches_count.
  - exact suspicious_words_distinct.
Qed.

Example keyword_repeated : _count_suspicious_keywords "LOGIN-login-Login" = 1.
Proof. reflexivity. Qed.

(** ** The normalizer *)

Lemma http_prefix_prepended (s : string) : has_http_prefix ("http://" ++ s) = true.
Proof.
  unfold has_http_prefix, PyStr.startswith.
  now rewrite (prefix_append "http://" s).
Qed.

Lemma normalize_url_prefix (url : string) :
  has_http_prefix (_normalize_url url) = true.
Proof.
  unfold _normalize_url. cbv zeta.
  destruct (has_http_prefix (PyStr.strip url)) eqn:H; cbn [negb];
    [exact H | apply http_prefix_prepended].
Qed.

(** C5 (as stated, refuted): an input that starts with [http://] and ends
    with a blank is not returned unchanged, and an input with a leading blank
    does not get [http://] prepended to it as it is. *)
Lemma normalize_rewrites_blanks :
  (has_http_prefix "http://a.test " = true
   /\ _normalize_url "http://a.test " <> "http://a.test ")
  /\ (has_http_prefix " a.test" = false
      /\ _normalize_url " a.test" <> "http://" ++ " a.test").
Proof. repeat split; vm_compute; discriminate. Qed.

(** C5 (amended): the normalizer first strips the whitespace at both ends of
    the input; if the stripped text starts with [http://] or [https://] it
    returns the stripped text, otherwise [http://] prepended to the stripped
    text; nothing else is rewritten, and the output always starts with
    [http://] or [https://]. *)
Theorem normalize_url_spec (url : string) :
  let s := PyStr.strip url in
  (has_http_prefix s = true -> _normalize_url url = s)
  /\ (has_http_prefix s = false -> _normalize_url url = "http://" ++ s)
  /\ has_http_prefix (_normalize_url url) = true.
Proof.
  cbv zeta. split; [|split]; [| |apply normalize_url_prefix];
    unfold _normalize_url; cbv zeta; now intros ->.
Qed.

(** On an input with no whitespace at either end the normalizer does what
    the amended statement says of the input itself. *)
Lemma normalize_url_trimmed (url : string) :
  PyStr.strip url = url ->
  _normalize_url url = if has_http_prefix url then url else "http://" ++ url.
Proof.
  intros E. unfold _normalize_url. cbv zeta. rewrite E.
  now destruct (has_http_prefix url).
Qed.

(** ** The hybrid tweaks *)

Lemma legitimate_guard_iff (o : OSINTRecord) :
  legitimate_guard o = true
  <-> https o = 1 /\ ssl_valid o = 1 /\ suspicious_keywords o = 0.
Proof.
  unfold legitimate_guard. rewrite !andb_true_iff, !Z.eqb_eq. tauto.
Qed.

Lemma phishing_guard_iff (o : OSINTRecord) :
  phishing_guard o = true
  <-> https o = 0 /\ ssl_valid o = 0 /\ 2 <= suspicious_keywords o.
Proof.
  unfold phishing_guard. rewrite !andb_true_iff, !Z.eqb_eq, Z.geb_le. tauto.
Qed.

Lemma guards_exclusive (o : OSINTRecord) :
  legitimate_guard o && phishing_guard o = false.
Proof.
  destruct (legitimate_guard o) eqn:L, (phishing_guard o) eqn:P; try reflexivity.
  apply legitimate_guard_iff in L. apply phishing_guard_iff in P. lia.
Qed.

(** C3: the hybrid tweaks return [Legitimate] when https is 1, ssl_valid is
    1 and no keyword was counted; [Phishing] when https is 0, ssl_valid is 0
    and at least two keywords were counted; and the classifier's verdict
    when neither condition holds. *)
Theorem hybrid_tweaks_spec (base : Verdict) (o : OSINTRecord) :
  (https o = 1 /\ ssl_valid o = 1 /\ suspicious_keywords o = 0
   -> hybrid_tweaks base o = Legitimate)
  /\ (https o = 0 /\ ssl_valid o = 0 /\ 2 <= suspicious_keywords o
      -> hybrid_tweaks base o = Phishing)
  /\ (~ (https o = 1 /\ ssl_valid o = 1 /\ suspicious_keywords o = 0)
      -> ~ (https o = 0 /\ ssl_valid o = 0 /\ 2 <= suspicious_keywords o)
      -> hybrid_tweaks base o = base).
Proof.
  rewrite <- legitimate_guard_iff, <- phishing_guard_iff.
  pose proof (guards_exclusive o) as X.
  unfold hybrid_tweaks, tweak_legitimate, tweak_phishing.
  destruct (legitimate_guard o), (phishing_guard o);
    repeat split; intros; try reflexivity; try discriminate; tauto.
Qed.

(** C8: the two conditions never hold together, so at most one assignment
    is made, and the two [if] statements give the same verdict in either
    order. *)
Theorem tweaks_exclusive_and_commute (o : OSINTRecord) :
  ~ ((https o = 1 /\ ssl_valid o = 1 /\ suspicious_keywords o = 0)
     /\ (https o = 0 /\ ssl_valid o = 0 /\ 2 <= suspicious_keywords o))
  /\ legitimate_guard o && phishing_guard o = false
  /\ forall result,
       tweak_phishing o (tweak_legitimate o result)
       = tweak_legitimate o (tweak_phishing o result).
Proof.
  pose proof (guards_exclusive o) as X.
  split; [lia|]. split; [exact X|].
  intros result. unfold tweak_legitimate, tweak_phishing.
  destruct (legitimate_guard o), (phishing_guard o); try reflexivity; discriminate.
Qed.

(** ** The handler [except Exception: return 0] *)

Section TryExcept.

Context {A : Type} (block : M A) (default : A) (log : list event).

Lemma try_except_value (v : A) (log' : list event) :
  block log = (Returned v, log') ->
  try_except block (ret default) log = (Returned v, log').
Proof. unfold try_except. now intros ->. Qed.

Lemma try_except_fault (e : exn) (log' : list event) :
  block log = (Raised e, log') ->
  try_except block (ret default) log = (Returned default, log').
Proof. unfold try_except, ret. now intros ->. Qed.

Lemma try_except_returns :
  exists v log', try_except block (ret default) log = (Returned v, log').
Proof.
  unfold try_except, ret. destruct (block log) as [[v|e] log']; eauto.
Qed.

End TryExcept.

(** ** The probes *)

(** The faults the specification names do make the blocks raise. *)
Lemma domain_age_block_query_fails (W : World) (d : string) (e : exn) log :
  whois_whois W d = Raised e ->
  domain_age_block W d log = (Raised e, (log ++ [WhoisQuery d])%list).
Proof. intros H. unfold domain_age_block. run. now rewrite H. Qed.

Lemma valid_ssl_block_connection_fails (W : World) (d : string) (e : exn) log :
  create_connection W d = Raised e ->
  valid_ssl_block W d log = (Raised e, (log ++ [TcpConnect d])%list).
Proof. intros H. unfold valid_ssl_block. run. now rewrite H. Qed.

Lemma valid_ssl_block_handshake_fails (W : World) (d : string) (e : exn) log :
  create_connection W d = Returned tt ->
  wrap_socket W d = Raised e ->
  valid_ssl_block W d log
  = (Raised e, ((log ++ [TcpConnect d]) ++ [TlsHandshake d])%list).
Proof. intros H1 H2. unfold valid_ssl_block. run. now rewrite H1, H2. Qed.

Lemma redirect_count_block_request_fails (W : World) (url : string) (e : exn) log :
  requests_get W (_normalize_url url) = Raised e ->
  redirect_count_block W url log
  = (Raised e, (log ++ [HttpGet (_normalize_url url)])%list).
Proof. intros H. unfold redirect_count_block. run. now rewrite H. Qed.

(** C6: none of the three probes raises: each returns a number on every
    input and from every state; and whenever the body of a probe raises,
    whatever the exception, the probe returns 0. *)
Theorem probes_never_raise (W : World) (domain url : string) (log : list event) :
  (exists n log', _get_domain_age_days W domain log = (Returned n, log'))
  /\ (exists v log', _has_valid_ssl W domain log = (Returned v, log'))
  /\ (exists c log', _get_redirect_count W url log = (Returned c, log'))
  /\ (forall e log', domain_age_block W domain log = (Raised e, log') ->
        _get_domain_age_days W domain log = (Returned 0, log'))
  /\ (forall e log', valid_ssl_block W domain log = (Raised e, log') ->
        _has_valid_ssl W domain log = (Returned 0, log'))
  /\ (forall e log', redirect_count_block W url log = (Raised e, log') ->
        _get_redirect_count W url log = (Returned 0, log')).
Proof.
  unfold _get_domain_age_days, _has_valid_ssl, _get_redirect_count.
  repeat split; try apply try_except_returns; intros e log'; apply try_except_fault.
Qed.

(** The TLS probe returns a flag. *)
Lemma has_valid_ssl_flag (W : World) (domain : string) (log : list event) :
  exists v log', _has_valid_ssl W domain log = (Returned v, log') /\ (v = 0 \/ v = 1).
Proof.
  unfold _has_valid_ssl, valid_ssl_block. run.
  destruct (create_connection W domain); [|eauto].
  destruct (wrap_socket W domain); [|eauto].
  destruct (getpeercert W domain) as [[[|x c]|]|]; eauto.
Qed.

(** ** The domain age *)

Lemma dict_get_in (w : list (string * pyval)) (key : string) (v : pyval) :
  NoDup (map fst w) -> In (key, v) w -> dict_get w key = v.
Proof.
  induction w as [|[k x] w IH]; cbn [map fst dict_get In]; intros N H; [destruct H|].
  apply NoDup_cons_iff in N as [Nk N].
  destruct H as [E|H].
  - injection E as -> ->. now rewrite String.eqb_refl.
  - destruct (String.eqb_spec k key) as [->|_]; [|now apply IH].
    exfalso. apply Nk. change key with (fst (key, v)). now apply in_map.
Qed.


Lemma whole_days_floor (delta : Z) : whole_days delta (days delta).
Proof.
  unfold whole_days, days, microseconds_per_day.
  change (86400 * 1000000) with 86400000000.
  pose proof (Z.div_mod delta 86400000000 ltac:(lia)) as E.
  pose proof (Z.mod_pos_bound delta 86400000000 ltac:(lia)) as B. lia.
Qed.


(** What the probe returns for each value the entry can hold under
    [creation_date]. *)
Lemma domain_age_of_value (W : World) (domain : string) (log : list event) w :
  whois_whois W domain = Returned w ->
  exists n,
    _get_domain_age_days W domain log
    = (Returned n, (log ++ [WhoisQuery domain])%list)
    /\ match dict_get w "creation_date" with
       | PyDatetime d | PyList (PyDatetime d :: _) =>
           n = Z.max (days (utcnow W - wall d)) 0
       | _ => n = 0
       end
    /\ 0 <= n.
Proof.
  intros Hw. unfold _get_domain_age_days, domain_age_block. run. rewrite Hw.
  destruct (dict_get w "creation_date") as [|s|[t [z|]]|[|v items]]; cbn;
    try (eexists; split; [reflexivity|]; split; [reflexivity|lia]).
  - destruct (String.eqb s ""); cbn; eexists; (split; [reflexivity|]);
      split; try reflexivity; lia.
  - destruct v as [|s|[t [z|]]|items']; cbn;
      try (eexists; split; [reflexivity|]; split; [reflexivity|lia]).
    + destruct (String.eqb s ""); cbn; eexists; (split; [reflexivity|]);
        split; try reflexivity; lia.
    + destruct items'; cbn; eexists; (split; [reflexivity|]);
        split; try reflexivity; lia.
Qed.



(** For a date without an offset, or at offset zero, the calendar reading
    is the instant, and the probe returns the elapsed whole days. *)
Lemma domain_age_utc_without_offset (W : World) (domain : string)
    (log : list event) w (d : datetime) :
  whois_whois W domain = Returned w ->
  NoDup (map fst w) ->
  In ("creation_date", PyDatetime d) w ->
  tzinfo d = None \/ tzinfo d = Some 0 ->
  exists q,
    whole_days (utcnow W - utc_instant d) q
    /\ _get_domain_age_days W domain log
       = (Returned (Z.max q 0), (log ++ [WhoisQuery domain])%list).
Proof.
  intros Hw N Hin Ht.
  destruct (domain_age_of_value W domain log w Hw) as (n & Hn & V & _).
  rewrite (dict_get_in _ _ _ N Hin) in V. subst n.
  exists (days (utcnow W - wall d)). split; [|exact Hn].
  replace (utc_instant d) with (wall d); [apply whole_days_floor|].
  unfold utc_instant. destruct Ht as [-> | ->]; lia.
Qed.

Example domain_age_online :
  _get_domain_age_days online "example.com" []
  = (Returned 1000, [WhoisQuery "example.com"]).
Proof. reflexivity. Qed.

(** ** The feature vector *)

(** Thirty rounds are enough for the padding loop, whatever the list. *)
Lemma pad_loop_spec (fuel : nat) (features : list Z) :
  (30 - List.length features <= fuel)%nat ->
  pad_loop fuel features
  = (features ++ repeat 0 (30 - List.length features))%list.
Proof.
  revert features. induction fuel as [|fuel IH]; intros features H; cbn [pad_loop].
  - replace (30 - List.length features)%nat with 0%nat by lia.
    now rewrite app_nil_r.
  - destruct (Z.ltb_spec (Z.of_nat (List.length features)) 30) as [Lt|Ge].
    + rewrite IH by (rewrite length_app; cbn [List.length]; lia).
      rewrite length_app. cbn [List.length].
      replace (30 - List.length features)%nat
        with (S (30 - (List.length features + 1)))%nat by lia.
      cbn [repeat]. now rewrite <- app_assoc.
    + replace (30 - List.length features)%nat with 0%nat by lia.
      now rewrite app_nil_r.
Qed.

Lemma padded_length (features : list Z) :
  List.length (firstn 30 (pad_loop 30 features)) = 30%nat.
Proof.
  rewrite pad_loop_spec by lia.
  rewrite length_firstn, length_app, repeat_length. lia.
Qed.

Lemma padded_18 (features : list Z) :
  List.length features = 18%nat ->
  firstn 30 (pad_loop 30 features) = (features ++ repeat 0 12)%list.
Proof.
  intros H. rewrite pad_loop_spec by lia. rewrite H.
  apply firstn_all2. rewrite length_app, repeat_length. lia.
Qed.

Lemma probe_values (W : World) (domain url : string) (log : list event) :
  exists age v c log1 log2 log3,
    _get_domain_age_days W domain log = (Returned age, log1)
    /\ _has_valid_ssl W domain log1 = (Returned v, log2)
    /\ _get_redirect_count W url log2 = (Returned c, log3).
Proof.
  destruct (try_except_returns (domain_age_block W domain) 0 log) as [age [log1 H1]].
  destruct (try_except_returns (valid_ssl_block W domain) 0 log1) as [v [log2 H2]].
  destruct (try_except_returns (redirect_count_block W url) 0 log2) as [c [log3 H3]].
  exists age, v, c, log1, log2, log3. auto.
Qed.

(** Once the URL parses, the OSINT record is produced. *)
Lemma get_osint_details_returns (W : World) (url : string) (log : list event) p :
  urlparse W (_normalize_url url) = Returned p ->
  exists o log', get_osint_details W url log = (Returned o, log').
Proof.
  intros Hp. unfold get_osint_details, _get_domain. run. rewrite Hp.
  destruct (probe_values W (PyStr.lower (PyStr.before ":" (netloc p))) url log)
    as (age & v & c & log1 & log2 & log3 & H1 & H2 & H3).
  rewrite H1, H2, H3. eauto.
Qed.

(** What [extract_features] makes of the record [get_osint_details] gives
    it. *)
Lemma extract_features_of_osint (W : World) (url : string) (log : list event) p :
  urlparse W (_normalize_url url) = Returned p ->
  extract_features W url log
  = match get_osint_details W url log with
    | (Returned osint, log') =>
        let norm_url := _normalize_url url in
        (Returned
           ([ PyStr.len norm_url;
              PyStr.count norm_url ".";
              (if PyStr.contains "@" norm_url then 1 else 0);
              PyStr.count norm_url "//";
              PyStr.count norm_url "-";
              PyStr.count norm_url "?";
              PyStr.count norm_url "=";
              PyStr.count_if PyStr.isdigit norm_url;
              PyStr.count_if PyStr.isalpha norm_url;
              PyStr.len (suffix (tldextract_extract W norm_url));
              PyStr.len (PyStr.lower (PyStr.before ":" (netloc p)));
              PyStr.len (path p);
              https osint;
              domain_age_days osint;
              ssl_valid osint;
              redirects osint;
              suspicious_keywords osint;
              subdomain_count osint ] ++ repeat 0 12)%list,
         log')
    | (Raised e, log') => (Raised e, log')
    end.
Proof.
  intros Hp. unfold extract_features, _get_domain. run. rewrite Hp.
  destruct (get_osint_details W url log) as [[osint|e] log']; [|reflexivity].
  now rewrite padded_18.
Qed.

(** C2 (as stated, refuted): on the input [[] the URL parser raises
    [ValueError] (an unmatched bracket in the network location) and
    [extract_features] returns no vector, with or without a network. *)
Lemma extract_features_raises_on_bracket :
  extract_features offline "[" [] = (Raised ValueError, [])
  /\ extract_features online "[" [] = (Raised ValueError, [])
  /\ forall v log', extract_features offline "[" [] <> (Returned v, log').
Proof.
  split; [reflexivity|]. split; [reflexivity|].
  intros v log'. vm_compute. discriminate.
Qed.

(** C2 (amended): for every input string, the empty one included, on which
    the URL parser returns, whatever the probes meet, [extract_features]
    returns a vector of exactly 30 numbers, and the slots after the first 18
    are 0. *)
Theorem extract_features_length (W : World) (url : string) (log : list event) p :
  urlparse W (_normalize_url url) = Returned p ->
  exists v log',
    extract_features W url log = (Returned v, log')
    /\ List.length v = 30%nat
    /\ skipn 18 v = repeat 0 12.
Proof.
  intros Hp. rewrite (extract_features_of_osint W url log p Hp).
  destruct (get_osint_details_returns W url log p Hp) as [o [log' ->]].
  cbv zeta. eexists. exists log'. repeat split.
Qed.

(** The empty string on a host with no network. *)
Lemma extract_features_length_witness :
  exists v log',
    extract_features offline "" [] = (Returned v, log')
    /\ List.length v = 30%nat
    /\ skipn 18 v = repeat 0 12.
Proof.
  apply (extract_features_length offline "" []
           {| scheme := "http"; netloc := ""; path := "" |}).
  reflexivity.
Defined.

(** C10: when [get_osint_details] returns a record for a URL,
    [extract_features] on the same URL, from the same state, returns a
    vector whose slots 13 to 18 are the https, domain_age_days, ssl_valid,
    redirects, suspicious_keywords and subdomain_count fields of that
    record, and it has made the same calls. *)
Theorem feature_slots_match_osint (W : World) (url : string) (log log' : list event)
    (o : OSINTRecord) :
  get_osint_details W url log = (Returned o, log') ->
  exists v,
    extract_features W url log = (Returned v, log')
    /\ nth 12 v 0 = https o
    /\ nth 13 v 0 = domain_age_days o
    /\ nth 14 v 0 = ssl_valid o
    /\ nth 15 v 0 = redirects o
    /\ nth 16 v 0 = suspicious_keywords o
    /\ nth 17 v 0 = subdomain_count o.
Proof.
  intros H.
  destruct (urlparse W (_normalize_url url)) as [p|e] eqn:Hp.
  - rewrite (extract_features_of_osint W url log p Hp), H. cbv zeta.
    eexists. repeat split.
  - exfalso. revert H. unfold get_osint_details. run. rewrite Hp. discriminate.
Qed.

(** A URL with two subdomain labels and one listed word, on a reachable
    site. *)
Lemma feature_slots_match_osint_witness :
  exists v,
    extract_features online "https://www.shop.example.com/login?x=1" []
    = (Returned v,
       [ WhoisQuery "www.shop.example.com"; TcpConnect "www.shop.example.com";
         TlsHandshake "www.shop.example.com";
         HttpGet "https://www.shop.example.com/login?x=1" ])
    /\ nth 12 v 0 = 1
    /\ nth 13 v 0 = 1000
    /\ nth 14 v 0 = 1
    /\ nth 15 v 0 = 1
    /\ nth 16 v 0 = 1
    /\ nth 17 v 0 = 2.
Proof.
  apply (feature_slots_match_osint online "https://www.shop.example.com/login?x=1" [] _
           {| osint_domain := "www.shop.example.com"; https := 1;
              domain_age_days := 1000; ssl_valid := 1; redirects := 1;
              suspicious_keywords := 1; subdomain_count := 2 |}).
  reflexivity.
Defined.

(** ** The scan handlers *)

(** [POST /api/scan] answers a missing, empty or blank [url] with the error
    and calls nothing. *)
Lemma api_scan_rejects_empty (W : World) (json_url : option string) (log : list event) :
  PyStr.strip (or_empty json_url) = "" ->
  api_scan W json_url log = (Returned (BadRequest "url field is required"), log).
Proof. intros H. unfold api_scan. cbv zeta. now rewrite H. Qed.

(** C4 (the code at the failing input): [POST /predict] with a missing or an
    empty [url] is not rejected: it runs the probes on the empty domain,
    calls the classifier, runs the probes again, stores the scan and renders
    a verdict. *)
Theorem predict_scans_empty_url :
  let osint := {| osint_domain := ""; https := 0; domain_age_days := 0;
                  ssl_valid := 0; redirects := 0; suspicious_keywords := 0;
                  subdomain_count := 0 |} in
  let features := ([7; 0; 0; 1; 0; 0; 0; 0; 4; 0; 0; 0] ++ repeat 0 18)%list in
  let calls := [ WhoisQuery ""; TcpConnect ""; HttpGet "http://"; Classify features;
                 WhoisQuery ""; TcpConnect ""; HttpGet "http://"; DbCommit "" ] in
  predict offline None [] = (Returned (Page "" Phishing osint), calls)
  /\ predict offline (Some "") [] = (Returned (Page "" Phishing osint), calls)
  /\ api_scan offline None [] = (Returned (BadRequest "url field is required"), [])
  /\ api_scan offline (Some "") [] = (Returned (BadRequest "url field is required"), []).
Proof. repeat split. Qed.

(** [POST /predict] renders the classifier's verdict after the hybrid
    tweaks, on the record of a second run of [get_osint_details]. *)
Lemma predict_applies_tweaks (W : World) (form_url : option string)
    (log : list event) p :
  let url := PyStr.strip (or_empty form_url) in
  urlparse W (_normalize_url url) = Returned p ->
  exists features osint log',
    predict W form_url log
    = (Returned
         (Page url
            (hybrid_tweaks
               (if model_predict W features =? 1 then Legitimate else Phishing)
               osint)
            osint),
       log').
Proof.
  cbv zeta. intros Hp. unfold predict. cbv zeta.
  pose proof (extract_features_of_osint W _ log p Hp) as Hv.
  destruct (get_osint_details_returns W _ log p Hp) as (o1 & log1 & Ho1).
  rewrite Ho1 in Hv. cbv zeta in Hv.
  unfold bind at 1. rewrite Hv.
  match type of Hv with _ = (Returned ?l, _) => set (v := l) end.
  unfold classify. run.
  destruct (get_osint_details_returns W _ (log1 ++ [Classify v])%list p Hp)
    as (o & log2 & Ho).
  rewrite Ho. eauto.
Qed.

(** An offset the creation date carries is dropped, not applied: two dates
    with the same calendar reading give the same age. *)
Lemma domain_age_ignores_offset (W1 W2 : World) (domain : string) (t : Z)
    (tz : option Z) (log : list event) :
  utcnow W1 = utcnow W2 ->
  whois_whois W1 domain
  = Returned [("creation_date", PyDatetime {| wall := t; tzinfo := tz |})] ->
  whois_whois W2 domain
  = Returned [("creation_date", PyDatetime {| wall := t; tzinfo := None |})] ->
  _get_domain_age_days W1 domain log = _get_domain_age_days W2 domain log.
Proof.
  intros Hn H1 H2. unfold _get_domain_age_days, domain_age_block. run.
  rewrite H1, H2, Hn. now destruct tz.
Qed.

(** With [urllib]'s parser, the scheme of a normalized URL that parses is
    [http] or [https]. *)
Lemma normalized_scheme (url : string) p :
  urllib_urlparse (_normalize_url url) = Returned p ->
  scheme p = "http" \/ scheme p = "https".
Proof.
  pose proof (normalize_url_prefix url) as H.
  unfold has_http_prefix, PyStr.startswith in H.
  apply orb_true_iff in H. destruct H as [H|H];
    apply prefix_split in H as [b ->]; unfold urllib_urlparse; cbn;
    match goal with
    | |- context [break_at ?f b] => destruct (break_at f b) as [n r]
    end;
    destruct (String.prefix "" b);
    match goal with
    | |- context [xorb ?x ?y] => destruct (xorb x y)
    end;
    intros E; inversion E; subst; cbn; auto.
Qed.

(** * Further properties *)

(** ** Strings: case and whitespace *)

Lemma append_assoc (a b c : string) : (a ++ b) ++ c = a ++ b ++ c.
Proof. induction a as [|x a IH]; cbn [append]; [reflexivity | now rewrite IH]. Qed.

Lemma append_nil_r (a : string) : a ++ "" = a.
Proof. induction a as [|x a IH]; cbn [append]; [reflexivity | now rewrite IH]. Qed.

Lemma lower_char_idem (c : ascii) :
  PyStr.lower_char (PyStr.lower_char c) = PyStr.lower_char c.
Proof. destruct c as [[] [] [] [] [] [] [] []]; reflexivity. Qed.

Lemma isspace_lower_char (c : ascii) :
  PyStr.isspace (PyStr.lower_char c) = PyStr.isspace c.
Proof. destruct c as [[] [] [] [] [] [] [] []]; reflexivity. Qed.

Lemma digit_not_alpha (c : ascii) :
  PyStr.isdigit c && PyStr.isalpha c = false.
Proof. destruct c as [[] [] [] [] [] [] [] []]; reflexivity. Qed.

Lemma lower_idem (s : string) : PyStr.lower (PyStr.lower s) = PyStr.lower s.
Proof.
  induction s as [|c s IH]; cbn [PyStr.lower]; [reflexivity|].
  now rewrite lower_char_idem, IH.
Qed.

Lemma lower_app (a b : string) :
  PyStr.lower (a ++ b) = PyStr.lower a ++ PyStr.lower b.
Proof.
  induction a as [|c a IH]; cbn [PyStr.lower append]; [reflexivity|].
  now rewrite IH.
Qed.

Lemma lower_empty (s : string) : PyStr.lower s = "" <-> s = "".
Proof. destruct s; cbn [PyStr.lower]; split; intros H; congruence. Qed.

Lemma lstrip_lower (s : string) :
  PyStr.lstrip (PyStr.lower s) = PyStr.lower (PyStr.lstrip s).
Proof.
  induction s as [|c s IH]; cbn [PyStr.lower PyStr.lstrip]; [reflexivity|].
  rewrite isspace_lower_char. now destruct (PyStr.isspace c).
Qed.

Lemma rstrip_lower (s : string) :
  PyStr.rstrip (PyStr.lower s) = PyStr.lower (PyStr.rstrip s).
Proof.
  induction s as [|c s IH]; cbn [PyStr.lower PyStr.rstrip]; [reflexivity|].
  rewrite IH, isspace_lower_char.
  destruct (PyStr.rstrip s); cbn [PyStr.lower]; [|reflexivity].
  now destruct (PyStr.isspace c).
Qed.

(** Stripping and lowering commute. *)
Lemma strip_lower (s : string) :
  PyStr.strip (PyStr.lower s) = PyStr.lower (PyStr.strip s).
Proof. unfold PyStr.strip. now rewrite lstrip_lower, rstrip_lower. Qed.

Lemma rstrip_last (s : string) :
  match PyStr.last_char (PyStr.rstrip s) with
  | Some c => PyStr.isspace c = false
  | None => True
  end.
Proof.
  induction s as [|c s IH]; cbn [PyStr.rstrip]; [exact I|].
  destruct (PyStr.rstrip s) as [|c' r].
  - destruct (PyStr.isspace c) eqn:Hc; cbn; [exact I | exact Hc].
  - exact IH.
Qed.

Lemma rstrip_head (s : string) (c : ascii) (r : string) :
  PyStr.rstrip s = String c r -> exists s', s = String c s'.
Proof.
  destruct s as [|c0 s']; cbn [PyStr.rstrip]; [discriminate|].
  destruct (PyStr.rstrip s'); [destruct (PyStr.isspace c0)|];
    intros H; inversion H; subst; eauto.
Qed.

Lemma strip_head (s : string) :
  match PyStr.strip s with
  | String c _ => PyStr.isspace c = false
  | EmptyString => True
  end.
Proof.
  unfold PyStr.strip. destruct (PyStr.rstrip (PyStr.lstrip s)) as [|c r] eqn:E;
    [exact I|].
  destruct (rstrip_head _ _ _ E) as [s' Hs]. pose proof (lstrip_head s) as H.
  now rewrite Hs in H.
Qed.

Lemma strip_idem (s : string) : PyStr.strip (PyStr.strip s) = PyStr.strip s.
Proof. apply strip_id; [apply strip_head | apply rstrip_last]. Qed.

Lemma last_char_app (a s : string) :
  PyStr.last_char (a ++ s)
  = match s with
    | EmptyString => PyStr.last_char a
    | String _ _ => PyStr.last_char s
    end.
Proof.
  induction a as [|c a IH]; cbn [append].
  - now destruct s.
  - destruct a as [|c' a'].
    + cbn [append] in *. destruct s; reflexivity.
    + change (PyStr.last_char (String c (String c' a' ++ s)))
        with (PyStr.last_char (String c' a' ++ s)).
      rewrite IH. destruct s; reflexivity.
Qed.

(** X1: normalizing a normalized URL changes nothing, so the probes and the
    parsers, which each normalize again, all see the same text. *)
Theorem normalize_url_idempotent (url : string) :
  _normalize_url (_normalize_url url) = _normalize_url url.
Proof.
  assert (T : PyStr.strip (_normalize_url url) = _normalize_url url).
  { unfold _normalize_url. cbv zeta.
    destruct (has_http_prefix (PyStr.strip url)); cbn [negb];
      [apply strip_idem|].
    apply strip_id; [reflexivity|].
    rewrite last_char_app. pose proof (rstrip_last (PyStr.lstrip url)) as L.
    fold (PyStr.strip url) in L. destruct (PyStr.strip url); [reflexivity|exact L]. }
  rewrite (normalize_url_trimmed _ T). now rewrite normalize_url_prefix.
Qed.

(** ** The keyword counter, further *)

(** X2: the counter does not see case: a URL and its lowered form get the
    same count. *)
Theorem keyword_count_ignores_case (url : string) :
  _count_suspicious_keywords (PyStr.lower url) = _count_suspicious_keywords url.
Proof. unfold _count_suspicious_keywords. cbv zeta. now rewrite lower_idem. Qed.

Lemma sum_matches_zero (text : string) (ws : list string) :
  sum_matches text ws = 0
  <-> forall w, In w ws -> PyStr.contains w text = false.
Proof.
  induction ws as [|w ws IH]; cbn [sum_matches In].
  - split; [intros _ w [] | reflexivity].
  - pose proof (sum_matches_bounds text ws) as B.
    destruct (PyStr.contains w text) eqn:C.
    + split; [lia|]. intros H. specialize (H w (or_introl eq_refl)). congruence.
    + rewrite IH. split.
      * intros H w' [<-|Hin]; auto.
      * intros H w' Hin. apply H. now right.
Qed.

(** X3: the count is 0 exactly when none of the listed words is a piece of
    the lowered URL. *)
Theorem keyword_count_zero_iff (url : string) :
  _count_suspicious_keywords url = 0
  <-> forall w, In w suspicious_words ->
        ~ exists a b, PyStr.lower url = a ++ w ++ b.
Proof.
  unfold _count_suspicious_keywords. cbv zeta. rewrite sum_matches_zero.
  split; intros H w Hin.
  - rewrite <- contains_split. rewrite (H w Hin). discriminate.
  - destruct (PyStr.contains w (PyStr.lower url)) eqn:C; [|reflexivity].
    exfalso. apply (H w Hin). now apply contains_split.
Qed.

Lemma sum_matches_mono (t1 t2 : string) (ws : list string) :
  (forall w, PyStr.contains w t1 = true -> PyStr.contains w t2 = true) ->
  sum_matches t1 ws <= sum_matches t2 ws.
Proof.
  intros H. induction ws as [|w ws IH]; cbn [sum_matches]; [lia|].
  pose proof (sum_matches_bounds t2 ws).
  destruct (PyStr.contains w t1) eqn:C1.
  - rewrite (H w C1). lia.
  - destruct (PyStr.contains w t2); lia.
Qed.

(** X4: text added before or after a URL never lowers its count. *)
Theorem keyword_count_monotone (before url after : string) :
  _count_suspicious_keywords url
  <= _count_suspicious_keywords (before ++ url ++ after).
Proof.
  unfold _count_suspicious_keywords. cbv zeta. apply sum_matches_mono.
  intros w C. apply contains_split in C as [a [b E]]. apply contains_split.
  rewrite !lower_app, E.
  exists (PyStr.lower before ++ a), (b ++ PyStr.lower after).
  now rewrite !append_assoc.
Qed.

(** ** One run of the probes *)

Lemma domain_age_run (W : World) (d : string) (log : list event) :
  exists n,
    _get_domain_age_days W d log = (Returned n, (log ++ [WhoisQuery d])%list)
    /\ 0 <= n.
Proof.
  unfold _get_domain_age_days, domain_age_block. run.
  destruct (whois_whois W d) as [w|e]; [|exists 0; split; [reflexivity|lia]].
  destruct (dict_get w "creation_date") as [|s|[t [z|]]|[|v items]]; cbn;
    try (eexists; split; [reflexivity|lia]).
  - destruct (String.eqb s ""); cbn; eexists; split; try reflexivity; lia.
  - destruct v as [|s|[t [z|]]|items']; cbn;
      try (eexists; split; [reflexivity|lia]).
    + destruct (String.eqb s ""); cbn; eexists; split; try reflexivity; lia.
    + destruct items'; cbn; eexists; split; try reflexivity; lia.
Qed.

Lemma valid_ssl_run (W : World) (d : string) (log : list event) :
  exists v,
    _has_valid_ssl W d log
    = (Returned v,
       (log ++ TcpConnect d :: (if tcp_connected W d then [TlsHandshake d] else []))%list)
    /\ (v = 0 \/ v = 1).
Proof.
  unfold _has_valid_ssl, valid_ssl_block, tcp_connected. run.
  destruct (create_connection W d); [|eauto].
  rewrite <- app_assoc. cbn [app].
  destruct (wrap_socket W d); [|eauto].
  destruct (getpeercert W d) as [[[|x c]|]|]; eauto.
Qed.

Lemma redirect_count_run (W : World) (url : string) (log : list event) :
  exists c,
    _get_redirect_count W url log
    = (Returned c, (log ++ [HttpGet (_normalize_url url)])%list)
    /\ 0 <= c.
Proof.
  unfold _get_redirect_count, redirect_count_block. run.
  destruct (requests_get W (_normalize_url url)) as [r|e];
    eexists; (split; [reflexivity|lia]).
Qed.

Lemma split_len_pos (sep : ascii) (s : string) : 1 <= PyStr.split_len sep s.
Proof.
  unfold PyStr.split_len.
  assert (0 <= PyStr.count_if (Ascii.eqb sep) s); [|lia].
  induction s as [|c s IH]; cbn [PyStr.count_if]; [lia|].
  destruct (Ascii.eqb sep c); lia.
Qed.

(** The record [get_osint_details] builds once the URL parses, and the
    calls it makes. *)
Lemma get_osint_details_run (W : World) (url : string) (log : list event) p :
  urlparse W (_normalize_url url) = Returned p ->
  let d := PyStr.lower (PyStr.before ":" (netloc p)) in
  let ext := tldextract_extract W (_normalize_url url) in
  exists age v c,
    get_osint_details W url log
    = (Returned {| osint_domain := d;
                   https := if String.eqb (scheme p) "https" then 1 else 0;
                   domain_age_days := age;
                   ssl_valid := v;
                   redirects := c;
                   suspicious_keywords := _count_suspicious_keywords url;
                   subdomain_count :=
                     if negb (String.eqb (subdomain ext) "")
                     then PyStr.split_len "." (subdomain ext) else 0 |},
       (log ++ osint_calls W url d)%list)
    /\ 0 <= age /\ (v = 0 \/ v = 1) /\ 0 <= c.
Proof.
  intros Hp d ext. unfold get_osint_details, _get_domain. run. rewrite Hp.
  fold d. fold ext.
  destruct (domain_age_run W d log) as (age & H1 & A).
  destruct (valid_ssl_run W d (log ++ [WhoisQuery d])) as (v & H2 & V).
  destruct (redirect_count_run W url
              ((log ++ [WhoisQuery d])
               ++ TcpConnect d :: (if tcp_connected W d then [TlsHandshake d] else [])))
    as (c & H3 & C).
  rewrite H1, H2, H3. exists age, v, c. repeat split; try assumption.
  f_equal. unfold osint_calls. now rewrite <- !app_assoc.
Qed.

Lemma get_osint_details_inv (W : World) (url : string) (log log' : list event) o :
  get_osint_details W url log = (Returned o, log') ->
  exists p, urlparse W (_normalize_url url) = Returned p.
Proof.
  destruct (urlparse W (_normalize_url url)) as [p|e] eqn:Hp; [eauto|].
  unfold get_osint_details. run. rewrite Hp. discriminate.
Qed.

Lemma prefix_colon (c : ascii) (s : string) :
  String.prefix ":" (String c s) = Ascii.eqb c ":".
Proof.
  cbn [String.prefix]. destruct (ascii_dec ":" c) as [<-|ne].
  - now destruct s.
  - symmetry. apply Ascii.eqb_neq. congruence.
Qed.

Lemma contains_colon_before (s : string) :
  PyStr.contains ":" (PyStr.before ":" s) = false.
Proof.
  induction s as [|c s IH]; [reflexivity|]. cbn [PyStr.before].
  destruct (Ascii.eqb c ":") eqn:E; [reflexivity|].
  cbn [PyStr.contains]. now rewrite prefix_colon, E, IH.
Qed.

Lemma lower_char_colon (c : ascii) :
  Ascii.eqb (PyStr.lower_char c) ":" = Ascii.eqb c ":".
Proof. destruct c as [[] [] [] [] [] [] [] []]; reflexivity. Qed.

Lemma contains_colon_lower (s : string) :
  PyStr.contains ":" (PyStr.lower s) = PyStr.contains ":" s.
Proof.
  induction s as [|c s IH]; [reflexivity|].
  cbn [PyStr.lower PyStr.contains].
  now rewrite !prefix_colon, lower_char_colon, IH.
Qed.

Lemma osint_fields (W : World) (url : string) (log log' : list event)
    (o : OSINTRecord) :
  get_osint_details W url log = (Returned o, log') ->
  (https o = 0 \/ https o = 1)
  /\ (ssl_valid o = 0 \/ ssl_valid o = 1)
  /\ 0 <= domain_age_days o
  /\ 0 <= redirects o
  /\ 0 <= suspicious_keywords o <= 14
  /\ 0 <= subdomain_count o
  /\ (subdomain_count o = 0
      <-> subdomain (tldextract_extract W (_normalize_url url)) = "")
  /\ PyStr.lower (osint_domain o) = osint_domain o
  /\ PyStr.contains ":" (osint_domain o) = false.
Proof.
  intros H. destruct (get_osint_details_inv _ _ _ _ _ H) as [p Hp].
  destruct (get_osint_details_run W url log p Hp) as (age & v & c & E & A & V & C).
  rewrite E in H. injection H as <- _. cbn [https ssl_valid domain_age_days
    redirects suspicious_keywords subdomain_count osint_domain].
  pose proof (sum_matches_bounds (PyStr.lower url) suspicious_words) as K.
  change (Z.of_nat (List.length suspicious_words)) with 14 in K.
  fold (_count_suspicious_keywords url) in K.
  pose proof (split_len_pos "." (subdomain (tldextract_extract W (_normalize_url url)))) as S.
  repeat split; try assumption; try lia.
  - destruct (String.eqb (scheme p) "https"); auto.
  - destruct (String.eqb_spec (subdomain (tldextract_extract W (_normalize_url url))) "");
      cbn [negb]; lia.
  - destruct (String.eqb_spec (subdomain (tldextract_extract W (_normalize_url url))) "");
      cbn [negb]; [auto | lia].
  - destruct (String.eqb_spec (subdomain (tldextract_extract W (_normalize_url url))) "");
      cbn [negb]; [reflexivity | congruence].
  - apply lower_idem.
  - rewrite contains_colon_lower. apply contains_colon_before.
Qed.

(** X5: whatever the collaborators answer, a record [get_osint_details]
    returns has both flags in {0, 1}, a domain age, a redirect count and a
    subdomain count that are not negative, a keyword count between 0 and 14,
    and a lower-case domain without a colon; the subdomain count is 0
    exactly when the domain parser found no subdomain. *)
Theorem osint_record_ranges (W : World) (url : string) (log log' : list event)
    (o : OSINTRecord) :
  get_osint_details W url log = (Returned o, log') ->
  (https o = 0 \/ https o = 1)
  /\ (ssl_valid o = 0 \/ ssl_valid o = 1)
  /\ 0 <= domain_age_days o
  /\ 0 <= redirects o
  /\ 0 <= suspicious_keywords o <= 14
  /\ 0 <= subdomain_count o
  /\ (subdomain_count o = 0
      <-> subdomain (tldextract_extract W (_normalize_url url)) = "")
  /\ PyStr.lower (osint_domain o) = osint_domain o
  /\ PyStr.contains ":" (osint_domain o) = false.
Proof.
  exact (osint_fields W url log log' o).
Qed.

Lemma osint_record_ranges_witness :
  let o := {| osint_domain := "www.shop.example.com"; https := 1;
              domain_age_days := 1000; ssl_valid := 1; redirects := 1;
              suspicious_keywords := 1; subdomain_count := 2 |} in
  (https o = 0 \/ https o = 1)
  /\ (ssl_valid o = 0 \/ ssl_valid o = 1)
  /\ 0 <= domain_age_days o
  /\ 0 <= redirects o
  /\ 0 <= suspicious_keywords o <= 14
  /\ 0 <= subdomain_count o
  /\ (subdomain_count o = 0
      <-> subdomain (tldextract_extract online
                       (_normalize_url "https://www.shop.example.com/login?x=1")) = "")
  /\ PyStr.lower (osint_domain o) = osint_domain o
  /\ PyStr.contains ":" (osint_domain o) = false.
Proof.
  apply (osint_record_ranges online "https://www.shop.example.com/login?x=1" []
           [ WhoisQuery "www.shop.example.com"; TcpConnect "www.shop.example.com";
             TlsHandshake "www.shop.example.com";
             HttpGet "https://www.shop.example.com/login?x=1" ]).
  reflexivity.
Defined.

(** X6: counting the calls of the probes, of the classifier and of the
    database (the domain parser's loading of its suffix list is not
    modelled), a run of [get_osint_details] that returns makes, in this
    order, one registry query and one TCP connection for the domain of the
    record, a TLS handshake only if the connection was made, and one HTTP
    request for the normalized URL; it calls neither the classifier nor the
    database. *)
Theorem osint_run_calls (W : World) (url : string) (log log' : list event)
    (o : OSINTRecord) :
  get_osint_details W url log = (Returned o, log') ->
  log' = (log
          ++ [WhoisQuery (osint_domain o); TcpConnect (osint_domain o)]
          ++ (if tcp_connected W (osint_domain o)
              then [TlsHandshake (osint_domain o)] else [])
          ++ [HttpGet (_normalize_url url)])%list.
Proof.
  intros H. destruct (get_osint_details_inv _ _ _ _ _ H) as [p Hp].
  destruct (get_osint_details_run W url log p Hp) as (age & v & c & E & _).
  rewrite E in H. injection H as <- <-. reflexivity.
Qed.

Lemma osint_run_calls_witness :
  [ WhoisQuery "a.b"; TcpConnect "a.b"; HttpGet "https://A.b:80/x" ]
  = ([] ++ [WhoisQuery "a.b"; TcpConnect "a.b"]
        ++ (if tcp_connected offline "a.b" then [TlsHandshake "a.b"] else [])
        ++ [HttpGet (_normalize_url " https://A.b:80/x ")])%list.
Proof.
  apply (osint_run_calls offline " https://A.b:80/x " [] _
           {| osint_domain := "a.b"; https := 1; domain_age_days := 0;
              ssl_valid := 0; redirects := 0; suspicious_keywords := 0;
              subdomain_count := 1 |}).
  reflexivity.
Defined.

(** ** The lexical slots *)

Lemma length_append (a b : string) :
  String.length (a ++ b) = (String.length a + String.length b)%nat.
Proof. induction a as [|c a IH]; cbn [append String.length]; [reflexivity | now rewrite IH]. Qed.

Lemma count_from_bounds (sub : string) (skip : nat) (s : string) :
  0 <= PyStr.count_from sub skip s <= PyStr.len s.
Proof.
  unfold PyStr.len. revert skip. induction s as [|c s IH]; intros skip;
    cbn [PyStr.count_from String.length]; [lia|].
  rewrite Nat2Z.inj_succ.
  destruct skip as [|k]; [destruct (String.prefix sub (String c s))|].
  - specialize (IH (String.length sub - 1)%nat). lia.
  - specialize (IH 0%nat). lia.
  - specialize (IH k). lia.
Qed.

Lemma count_if_bounds (p : ascii -> bool) (s : string) :
  0 <= PyStr.count_if p s <= PyStr.len s.
Proof.
  unfold PyStr.len. induction s as [|c s IH]; cbn [PyStr.count_if String.length];
    [lia|].
  rewrite Nat2Z.inj_succ. destruct (p c); lia.
Qed.

Lemma digits_and_letters (s : string) :
  PyStr.count_if PyStr.isdigit s + PyStr.count_if PyStr.isalpha s <= PyStr.len s.
Proof.
  unfold PyStr.len. induction s as [|c s IH]; cbn [PyStr.count_if String.length];
    [lia|].
  rewrite Nat2Z.inj_succ. pose proof (digit_not_alpha c) as D.
  destruct (PyStr.isdigit c), (PyStr.isalpha c); try discriminate; lia.
Qed.

Lemma normalize_url_shape (url : string) :
  exists rest,
    _normalize_url url = "http://" ++ rest \/ _normalize_url url = "https://" ++ rest.
Proof.
  pose proof (normalize_url_prefix url) as H.
  unfold has_http_prefix, PyStr.startswith in H.
  apply orb_true_iff in H. destruct H as [H|H];
    apply prefix_split in H as [b E]; exists b; auto.
Qed.

Lemma lexical_floor (url : string) :
  7 <= PyStr.len (_normalize_url url)
  /\ 1 <= PyStr.count (_normalize_url url) "//"
  /\ 4 <= PyStr.count_if PyStr.isalpha (_normalize_url url).
Proof.
  destruct (normalize_url_shape url) as [b [-> | ->]]; unfold PyStr.len, PyStr.count;
    rewrite length_append;
    pose proof (count_from_bounds "//" 0 b);
    pose proof (count_if_bounds PyStr.isalpha b);
    cbn -[Z.add Z.of_nat Nat.add];
    replace (String.prefix "" b) with true by (now destruct b); lia.
Qed.

Lemma extract_features_inv (W : World) (url : string) (log log' : list event)
    (v : list Z) :
  extract_features W url log = (Returned v, log') ->
  exists p osint,
    urlparse W (_normalize_url url) = Returned p
    /\ get_osint_details W url log = (Returned osint, log')
    /\ v = ([ PyStr.len (_normalize_url url);
              PyStr.count (_normalize_url url) ".";
              (if PyStr.contains "@" (_normalize_url url) then 1 else 0);
              PyStr.count (_normalize_url url) "//";
              PyStr.count (_normalize_url url) "-";
              PyStr.count (_normalize_url url) "?";
              PyStr.count (_normalize_url url) "=";
              PyStr.count_if PyStr.isdigit (_normalize_url url);
              PyStr.count_if PyStr.isalpha (_normalize_url url);
              PyStr.len (suffix (tldextract_extract W (_normalize_url url)));
              PyStr.len (PyStr.lower (PyStr.before ":" (netloc p)));
              PyStr.len (path p);
              https osint;
              domain_age_days osint;
              ssl_valid osint;
              redirects osint;
              suspicious_keywords osint;
              subdomain_count osint ] ++ repeat 0 12)%list.
Proof.
  intros H. destruct (urlparse W (_normalize_url url)) as [p|e] eqn:Hp.
  - rewrite (extract_features_of_osint W url log p Hp) in H.
    destruct (get_osint_details W url log) as [[o|e] l]; [|discriminate].
    cbv zeta in H. injection H as <- <-. eauto.
  - revert H. unfold extract_features. run. rewrite Hp. discriminate.
Qed.

(** X7: no slot of a vector [extract_features] returns is negative. *)
Theorem features_non_negative (W : World) (url : string) (log log' : list event)
    (v : list Z) :
  extract_features W url log = (Returned v, log') ->
  Forall (fun x => 0 <= x) v.
Proof.
  intros H. destruct (extract_features_inv _ _ _ _ _ H) as (p & o & Hp & Ho & ->).
  destruct (osint_fields W url log log' o Ho)
    as (F & S & A & R & K & D).
  pose proof (fun sub => count_from_bounds sub 0 (_normalize_url url)) as C.
  pose proof (fun q => count_if_bounds q (_normalize_url url)) as Q.
  unfold PyStr.count, PyStr.len.
  repeat (apply Forall_cons; [try apply C; try apply Q; try lia|]);
    try (destruct (PyStr.contains "@" (_normalize_url url)); lia).
  apply Forall_nil.
Qed.

Lemma features_non_negative_witness :
  Forall (fun x => 0 <= x)
         ([7; 0; 0; 1; 0; 0; 0; 0; 4; 0; 0; 0] ++ repeat 0 18)%list.
Proof.
  apply (features_non_negative offline "" []
           [WhoisQuery ""; TcpConnect ""; HttpGet "http://"]).
  reflexivity.
Defined.

(** X8: in a vector [extract_features] returns, the length slot is at
    least 7, the [//] slot at least 1 and the letter slot at least 4 (the
    scheme the normalizer guarantees); the [@] slot is 0 or 1; digits and
    letters together, and each of the counts of [.], [//], [-], [?] and [=],
    do not exceed the length slot. *)
Theorem lexical_slot_bounds (W : World) (url : string) (log log' : list event)
    (v : list Z) :
  extract_features W url log = (Returned v, log') ->
  7 <= nth 0 v 0
  /\ 1 <= nth 3 v 0
  /\ 4 <= nth 8 v 0
  /\ (nth 2 v 0 = 0 \/ nth 2 v 0 = 1)
  /\ nth 7 v 0 + nth 8 v 0 <= nth 0 v 0
  /\ nth 1 v 0 <= nth 0 v 0
  /\ nth 3 v 0 <= nth 0 v 0
  /\ nth 4 v 0 <= nth 0 v 0
  /\ nth 5 v 0 <= nth 0 v 0
  /\ nth 6 v 0 <= nth 0 v 0.
Proof.
  intros H. destruct (extract_features_inv _ _ _ _ _ H) as (p & o & _ & _ & ->).
  cbn [nth app].
  destruct (lexical_floor url) as (L & S & A).
  pose proof (fun sub => count_from_bounds sub 0 (_normalize_url url)) as C.
  pose proof (digits_and_letters (_normalize_url url)) as D.
  unfold PyStr.count in *.
  repeat split; try assumption; try apply C.
  destruct (PyStr.contains "@" (_normalize_url url)); auto.
Qed.

Lemma lexical_slot_bounds_witness :
  let v := ([38; 3; 0; 1; 0; 1; 1; 1; 28; 3; 20; 6; 1; 1000; 1; 1; 1; 2]
            ++ repeat 0 12)%list in
  7 <= nth 0 v 0
  /\ 1 <= nth 3 v 0
  /\ 4 <= nth 8 v 0
  /\ (nth 2 v 0 = 0 \/ nth 2 v 0 = 1)
  /\ nth 7 v 0 + nth 8 v 0 <= nth 0 v 0
  /\ nth 1 v 0 <= nth 0 v 0
  /\ nth 3 v 0 <= nth 0 v 0
  /\ nth 4 v 0 <= nth 0 v 0
  /\ nth 5 v 0 <= nth 0 v 0
  /\ nth 6 v 0 <= nth 0 v 0.
Proof.
  apply (lexical_slot_bounds online "https://www.shop.example.com/login?x=1" []
           [ WhoisQuery "www.shop.example.com"; TcpConnect "www.shop.example.com";
             TlsHandshake "www.shop.example.com";
             HttpGet "https://www.shop.example.com/login?x=1" ]).
  reflexivity.
Defined.

(** ** The domain *)




(** ** Uniform computations *)

Lemma uniform_ret {A} (a : A) : uniform (ret a).
Proof. exists (Returned a), []. intros log. unfold ret. now rewrite app_nil_r. Qed.

Lemma uniform_lift {A} (x : Exc A) : uniform (lift x).
Proof. exists x, []. intros log. unfold lift. now rewrite app_nil_r. Qed.

Lemma uniform_call {A} (ev : event) (x : Exc A) : uniform (call ev x).
Proof. exists x, [ev]. reflexivity. Qed.

Lemma uniform_bind {A B} (m : M A) (k : A -> M B) :
  uniform m -> (forall a, uniform (k a)) -> uniform (bind m k).
Proof.
  intros ([a|e] & L & Hm) Hk.
  - destruct (Hk a) as (r & L' & Hka). exists r, (L ++ L')%list.
    intros log. unfold bind. now rewrite Hm, Hka, app_assoc.
  - exists (Raised e), L. intros log. unfold bind. now rewrite Hm.
Qed.

Lemma uniform_try_except {A} (body handler : M A) :
  uniform body -> uniform handler -> uniform (try_except body handler).
Proof.
  intros ([a|e] & L & Hb) (r & L' & Hh).
  - exists (Returned a), L. intros log. unfold try_except. now rewrite Hb.
  - exists r, (L ++ L')%list. intros log. unfold try_except.
    now rewrite Hb, Hh, app_assoc.
Qed.

Ltac uniform_step :=
  first
    [ apply uniform_ret | apply uniform_lift | apply uniform_call
    | apply uniform_try_except
    | apply uniform_bind; [|intros ?]
    | match goal with
      | |- uniform (match ?x with _ => _ end) => destruct x
      end ].

Lemma uniform_get_osint_details (W : World) (url : string) :
  uniform (get_osint_details W url).
Proof.
  unfold get_osint_details, _get_domain, _get_domain_age_days, _has_valid_ssl,
    _get_redirect_count, domain_age_block, valid_ssl_block, redirect_count_block.
  cbv zeta. repeat uniform_step.
Qed.

Lemma osint_every_log (W : World) (url : string) p :
  urlparse W (_normalize_url url) = Returned p ->
  exists o,
    forall log,
      get_osint_details W url log
      = (Returned o, (log ++ osint_calls W url (osint_domain o))%list).
Proof.
  intros Hp. destruct (uniform_get_osint_details W url) as (r & L & H).
  destruct (get_osint_details_run W url [] p Hp) as (age & v & c & E & _).
  rewrite H in E. cbn [app] in E. injection E as -> ->.
  eexists. intros log. exact (H log).
Qed.

Lemma features_every_log (W : World) (url : string) p :
  urlparse W (_normalize_url url) = Returned p ->
  exists v o,
    (forall log,
       extract_features W url log
       = (Returned v, (log ++ osint_calls W url (osint_domain o))%list))
    /\ (forall log,
          get_osint_details W url log
          = (Returned o, (log ++ osint_calls W url (osint_domain o))%list)).
Proof.
  intros Hp. destruct (osint_every_log W url p Hp) as (o & Ho).
  eexists. exists o. split; [|exact Ho].
  intros log. rewrite (extract_features_of_osint W url log p Hp), Ho.
  cbv zeta. reflexivity.
Qed.

(** Both handlers on a URL that parses: the verdicts, the record and the
    calls, from any log. *)
Lemma scan_handlers_run (W : World) (form_url : option string) p :
  let url := PyStr.strip (or_empty form_url) in
  urlparse W (_normalize_url url) = Returned p ->
  exists v o,
    let r := if model_predict W v =? 1 then Legitimate else Phishing in
    let probes := osint_calls W url (osint_domain o) in
    (forall log,
       predict W form_url log
       = (Returned (Page url (hybrid_tweaks r o) o),
          (log ++ probes ++ [Classify v] ++ probes ++ [DbCommit url])%list))
    /\ (url <> "" ->
        forall log,
          api_scan W form_url log
          = (Returned (Json url r o),
             (log ++ probes ++ [Classify v] ++ probes)%list)).
Proof.
  cbv zeta. intros Hp.
  destruct (features_every_log W _ p Hp) as (v & o & Hv & Ho).
  exists v, o. split.
  - intros log. unfold predict, classify. cbv zeta. run.
    rewrite Hv, Ho. now rewrite <- !app_assoc.
  - intros Hne log. unfold api_scan, classify. cbv zeta.
    destruct (String.eqb_spec (PyStr.strip (or_empty form_url)) "") as [E|_];
      [contradiction|].
    run. rewrite Hv, Ho. now rewrite <- !app_assoc.
Qed.



(** X11: counting the calls of the probes, of the classifier and of the
    database (the domain parser's loading of its suffix list is not
    modelled): on a URL that is not blank and parses, one scan through the
    form handler makes two rounds of probes for one domain, each a registry
    query, a TCP connection, possibly a TLS handshake and an HTTP request for
    the normalized URL, with the one classifier call between the rounds, and
    then stores the scan once; the JSON handler makes two such rounds around
    one classifier call and stores nothing. *)
Theorem scan_runs_probes_twice (W : World) (form_url : option string)
    (log : list event) p :
  let url := PyStr.strip (or_empty form_url) in
  url <> "" ->
  urlparse W (_normalize_url url) = Returned p ->
  exists d,
    (exists v first second reply,
       predict W form_url log
       = (Returned reply,
          (log ++ probe_round d url first ++ [Classify v]
               ++ probe_round d url second ++ [DbCommit url])%list))
    /\ (exists v first second reply,
          api_scan W form_url log
          = (Returned reply,
             (log ++ probe_round d url first ++ [Classify v]
                  ++ probe_round d url second)%list)).
Proof.
  cbv zeta. intros Hne Hp.
  destruct (scan_handlers_run W form_url p Hp) as (v & o & Hpred & Hapi).
  cbv zeta in *. exists (osint_domain o).
  split; exists v, (tcp_connected W (osint_domain o)),
                (tcp_connected W (osint_domain o)); eexists;
    [apply Hpred | apply (Hapi Hne)].
Qed.

Lemma scan_runs_probes_twice_witness :
  let url := "https://www.example.com/" in
  exists d,
    (exists v first second reply,
       predict online (Some url) []
       = (Returned reply,
          ([] ++ probe_round d url first ++ [Classify v]
              ++ probe_round d url second ++ [DbCommit url])%list))
    /\ (exists v first second reply,
          api_scan online (Some url) []
          = (Returned reply,
             ([] ++ probe_round d url first ++ [Classify v]
                 ++ probe_round d url second)%list)).
Proof.
  apply (scan_runs_probes_twice online (Some "https://www.example.com/") []
           {| scheme := "https"; netloc := "www.example.com"; path := "/" |}).
  - discriminate.
  - reflexivity.
Defined.

(** ** The hybrid tweaks, further *)

(** X12: applying the hybrid tweaks twice is applying them once; and they
    leave the verdict alone whenever the https flag and the certificate flag
    differ, and whenever exactly one keyword was counted. *)
Theorem hybrid_tweaks_idempotent (result : Verdict) (o : OSINTRecord) :
  hybrid_tweaks (hybrid_tweaks result o) o = hybrid_tweaks result o
  /\ (https o <> ssl_valid o -> hybrid_tweaks result o = result)
  /\ (suspicious_keywords o = 1 -> hybrid_tweaks result o = result).
Proof.
  pose proof (guards_exclusive o) as X.
  pose proof (legitimate_guard_iff o) as L.
  pose proof (phishing_guard_iff o) as P.
  unfold hybrid_tweaks, tweak_legitimate, tweak_phishing.
  destruct (legitimate_guard o), (phishing_guard o); try discriminate;
    repeat split; intros; try reflexivity;
    try (destruct L as [L _]; specialize (L eq_refl)); 
    try (destruct P as [P _]; specialize (P eq_refl)); lia.
Qed.

(** ** Accounts *)

Lemma next_id_above (ids : list Z) (x : Z) : In x ids -> x < next_id ids.
Proof.
  unfold next_id. induction ids as [|y ids IH]; cbn [In fold_right]; [tauto|].
  intros [->|H]; [lia|]. specialize (IH H). lia.
Qed.

Lemma next_id_fresh (ids : list Z) : ~ In (next_id ids) ids.
Proof. intros H. apply next_id_above in H. lia. Qed.

Lemma user_by_email_none (db : Database) (e : string) :
  user_by_email db e = None -> ~ In e (map User.email (users db)).
Proof.
  unfold user_by_email. intros H Hin. apply in_map_iff in Hin as (u & <- & Hu).
  pose proof (find_none _ _ H u Hu) as N. cbn in N.
  now rewrite String.eqb_refl in N.
Qed.

Lemma find_app_none {A} (f : A -> bool) (l l' : list A) :
  find f l = None -> find f (l ++ l') = find f l'.
Proof.
  induction l as [|x l IH]; cbn [find app]; [reflexivity|].
  destruct (f x); [discriminate | exact IH].
Qed.

Lemma normalized_form (x : string) :
  PyStr.lower (PyStr.strip (PyStr.lower (PyStr.strip x)))
  = PyStr.lower (PyStr.strip x).
Proof. now rewrite strip_lower, strip_idem, lower_idem. Qed.

Lemma NoDup_snoc {A} (l : list A) (x : A) : NoDup l -> ~ In x l -> NoDup (l ++ [x]).
Proof.
  intros N H. apply NoDup_app; [exact N | repeat constructor; intros [] |].
  intros y Hy [<-|[]]. contradiction.
Qed.

(** What [register] does, case by case. *)
Lemma register_cases (generate_password_hash : string -> string -> string)
    (db : Database) (session : Session) (m : method)
    (form_email form_password : option string) (salt : string) (now : Z) :
  let email := PyStr.lower (PyStr.strip (or_empty form_email)) in
  let password := PyStr.strip (or_empty form_password) in
  let out := register generate_password_hash db session m form_email
               form_password salt now in
  (snd out = db
   /\ fst out
      <> RedirectTo ep_login
           (Some ("Registration successful. Please login.", "success")))
  \/ (m = POST
      /\ is_authenticated db session = false
      /\ email <> "" /\ password <> ""
      /\ user_by_email db email = None
      /\ out
         = (RedirectTo ep_login
              (Some ("Registration successful. Please login.", "success")),
            {| users :=
                 (users db
                  ++ [ {| User.id := next_id (map User.id (users db));
                          User.email := email;
                          User.password_hash := generate_password_hash salt password;
                          User.created_at := now |} ])%list;
               scans := scans db |})).
Proof.
  cbv zeta. unfold register.
  destruct (is_authenticated db session); [now left|].
  destruct m; [now left|]. cbv zeta.
  destruct (String.eqb_spec (PyStr.lower (PyStr.strip (or_empty form_email))) "")
    as [E|E]; [now left|].
  destruct (String.eqb_spec (PyStr.strip (or_empty form_password)) "")
    as [P|P]; [now left|]. cbn [orb].
  destruct (user_by_email db _) eqn:U; [now left|].
  right. repeat split; assumption.
Qed.

(** X13: [register] adds a row only for a POST from a visitor who is not
    logged in, with an address and a password that are not blank and an
    address, trimmed and lower-cased, that no row holds; the row goes last,
    with a new key and that address, and success is flashed.  In every other
    case the database is left as it was and no success is flashed. *)
Theorem register_inserts_only_when
    (generate_password_hash : string -> string -> string)
    (db : Database) (session : Session) (m : method)
    (form_email form_password : option string) (salt : string) (now : Z) :
  let email := PyStr.lower (PyStr.strip (or_empty form_email)) in
  let password := PyStr.strip (or_empty form_password) in
  let out := register generate_password_hash db session m form_email
               form_password salt now in
  (snd out = db
   /\ fst out
      <> RedirectTo ep_login
           (Some ("Registration successful. Please login.", "success")))
  \/ (m = POST
      /\ is_authenticated db session = false
      /\ email <> "" /\ password <> ""
      /\ user_by_email db email = None
      /\ out
         = (RedirectTo ep_login
              (Some ("Registration successful. Please login.", "success")),
            {| users :=
                 (users db
                  ++ [ {| User.id := next_id (map User.id (users db));
                          User.email := email;
                          User.password_hash := generate_password_hash salt password;
                          User.created_at := now |} ])%list;
               scans := scans db |})).
Proof. apply register_cases. Qed.

(** X14: [register] keeps the user table well formed: keys distinct,
    addresses distinct, every address non-empty, trimmed and lower-case. *)
Theorem register_keeps_well_formed
    (generate_password_hash : string -> string -> string)
    (db : Database) (session : Session) (m : method)
    (form_email form_password : option string) (salt : string) (now : Z) :
  well_formed db ->
  well_formed (snd (register generate_password_hash db session m form_email
                      form_password salt now)).
Proof.
  intros (Ni & Ne & Fn).
  destruct (register_cases generate_password_hash db session m form_email
              form_password salt now) as [[-> _]|(_ & _ & He & _ & Hu & ->)];
    [now repeat split|].
  cbn [snd]. unfold well_formed. cbn [users]. rewrite !map_app. cbn [map].
  cbn [User.id User.email]. repeat split.
  - apply NoDup_snoc; [exact Ni | apply next_id_fresh].
  - apply NoDup_snoc; [exact Ne | now apply user_by_email_none].
  - apply Forall_app. split; [exact Fn|]. constructor; [|constructor].
    cbn [User.email]. split; [exact He | apply normalized_form].
Qed.

Lemma sample_db_well_formed : well_formed sample_db.
Proof.
  unfold well_formed. split; [|split]; cbn.
  - constructor; [intros [] | constructor].
  - constructor; [intros [] | constructor].
  - constructor; [split; [discriminate | reflexivity] | constructor].
Qed.

Lemma register_keeps_well_formed_witness :
  well_formed
    (snd (register clear_hash sample_db None POST (Some " Bob@Example.COM ")
            (Some " hunter2 ") "s2" 50)).
Proof.
  apply (register_keeps_well_formed clear_hash sample_db None POST
           (Some " Bob@Example.COM ") (Some " hunter2 ") "s2" 50).
  exact sample_db_well_formed.
Defined.

(** X15: a registration that succeeds can be followed by a login: with any
    spelling of the address that trims and lowers to the same text, and the
    same password up to blanks at its ends, a visitor who is not logged in
    is sent to the dashboard with the session of the new user, provided the
    check accepts the password against the hash just made. *)
Theorem register_then_login
    (generate_password_hash : string -> string -> string)
    (check_password_hash : string -> string -> bool)
    (db : Database) (session : Session)
    (form_email form_password login_email login_password : option string)
    (salt : string) (now : Z) :
  let email := PyStr.lower (PyStr.strip (or_empty form_email)) in
  let password := PyStr.strip (or_empty form_password) in
  is_authenticated db session = false ->
  email <> "" -> password <> "" ->
  user_by_email db email = None ->
  check_password_hash (generate_password_hash salt password) password = true ->
  PyStr.lower (PyStr.strip (or_empty login_email)) = email ->
  PyStr.strip (or_empty login_password) = password ->
  let out := register generate_password_hash db session POST form_email
               form_password salt now in
  fst out
  = RedirectTo ep_login (Some ("Registration successful. Please login.", "success"))
  /\ login check_password_hash (snd out) None POST login_email login_password
     = (RedirectTo ep_dashboard None, Some (next_id (map User.id (users db)))).
Proof.
  cbv zeta. intros Ha He Hp Hu Hc Le Lp.
  assert (R : register generate_password_hash db session POST form_email
                form_password salt now
              = (RedirectTo ep_login
                   (Some ("Registration successful. Please login.", "success")),
                 {| users :=
                      (users db
                       ++ [ {| User.id := next_id (map User.id (users db));
                               User.email :=
                                 PyStr.lower (PyStr.strip (or_empty form_email));
                               User.password_hash :=
                                 generate_password_hash salt
                                   (PyStr.strip (or_empty form_password));
                               User.created_at := now |} ])%list;
                    scans := scans db |})).
  { unfold register. rewrite Ha. cbv zeta.
    destruct (String.eqb_spec (PyStr.lower (PyStr.strip (or_empty form_email))) "");
      [contradiction|].
    destruct (String.eqb_spec (PyStr.strip (or_empty form_password)) "");
      [contradiction|].
    cbn [orb]. now rewrite Hu. }
  rewrite R. cbn [fst snd]. split; [reflexivity|].
  unfold login, is_authenticated, current_user. cbv zeta.
  rewrite Le, Lp. unfold user_by_email in *. cbn [users].
  rewrite (find_app_none _ _ _ Hu). cbn [find User.email].
  rewrite String.eqb_refl. cbn [User.password_hash User.id]. now rewrite Hc.
Qed.

Lemma register_then_login_witness :
  let out := register clear_hash sample_db None POST (Some " Bob@Example.COM ")
               (Some " hunter2 ") "s2" 50 in
  fst out
  = RedirectTo ep_login (Some ("Registration successful. Please login.", "success"))
  /\ login clear_check (snd out) None POST (Some "BOB@example.com") (Some "hunter2")
     = (RedirectTo ep_dashboard None, Some 2).
Proof.
  apply (register_then_login clear_hash clear_check sample_db None
           (Some " Bob@Example.COM ") (Some " hunter2 ")
           (Some "BOB@example.com") (Some "hunter2") "s2" 50);
    first [reflexivity | cbv; discriminate].
Defined.

(** X16: [login] opens a session only for a POST whose address, trimmed and
    lower-cased, is that of a stored user and whose trimmed password the
    check accepts against that user's hash; otherwise the session stays as it
    was.  It never writes to the database. *)
Theorem login_sound (check_password_hash : string -> string -> bool)
    (db : Database) (session : Session) (m : method)
    (form_email form_password : option string) :
  let out := login check_password_hash db session m form_email form_password in
  snd out = session
  \/ exists user,
       In user (users db)
       /\ m = POST
       /\ is_authenticated db session = false
       /\ User.email user = PyStr.lower (PyStr.strip (or_empty form_email))
       /\ check_password_hash (User.password_hash user)
            (PyStr.strip (or_empty form_password)) = true
       /\ out = (RedirectTo ep_dashboard None, Some (User.id user)).
Proof.
  cbv zeta. unfold login.
  destruct (is_authenticated db session); [now left|].
  destruct m; [now left|]. cbv zeta.
  destruct (user_by_email db _) as [user|] eqn:U; [|now left].
  destruct (check_password_hash (User.password_hash user) _) eqn:C;
    cbn [negb]; [|now left].
  right. exists user. unfold user_by_email in U.
  apply find_some in U as [Hin He]. apply String.eqb_eq in He.
  repeat split; assumption.
Qed.



(** X18: after [logout], whatever the session was, the visitor is not
    logged in: the home page sends to the login page, and the dashboard and
    the report answer as to any visitor who is not logged in. *)
Theorem logout_closes_session
    (order_by_created_at_desc : list Scan.t -> list Scan.t)
    (percent : Z -> Z -> Z) (strftime : Z -> string)
    (db : Database) (session : Session) (scan_id : Z) :
  let session' := snd (logout db session) in
  is_authenticated db session' = false
  /\ home db session' = RedirectTo ep_login None
  /\ dashboard order_by_created_at_desc percent strftime db session' = unauthorized
  /\ download_report db session' scan_id = unauthorized.
Proof.
  cbv zeta. unfold logout.
  destruct (is_authenticated db session) eqn:A; cbn [snd].
  - unfold home, dashboard, download_report, is_authenticated.
    cbn [current_user]. repeat split.
  - unfold is_authenticated in A.
    destruct (current_user db session) eqn:C; [discriminate|].
    unfold home, dashboard, download_report, is_authenticated. rewrite C.
    repeat split.
Qed.

(** ** Statistics and history *)

Lemma scans_with_filter (db : Database) (user_id : Z) (result : string) :
  scans_with db user_id result
  = filter (fun s => String.eqb (Scan.result s) result) (scans_of db user_id).
Proof.
  unfold scans_with, scans_of. induction (scans db) as [|s l IH]; cbn [filter];
    [reflexivity|].
  destruct (Scan.user_id s =? user_id); cbn [andb filter];
    [destruct (String.eqb (Scan.result s) result)|]; now rewrite IH.
Qed.

Lemma two_verdicts (l : list Scan.t) :
  (List.length (filter (fun s => String.eqb (Scan.result s) "Phishing") l)
   + List.length (filter (fun s => String.eqb (Scan.result s) "Legitimate") l)
   <= List.length l)%nat.
Proof.
  induction l as [|s l IH]; cbn [filter List.length]; [lia|].
  destruct (String.eqb_spec (Scan.result s) "Phishing") as [E|_].
  - rewrite E. cbn [String.eqb Ascii.eqb Bool.eqb andb List.length]. lia.
  - destruct (String.eqb (Scan.result s) "Legitimate"); cbn [List.length]; lia.
Qed.

(** X19: in the statistics of a user, the phishing and the legitimate
    counts are not negative and together do not exceed the total; with no
    scan the rate is 0, no division being made; and the scans of other users
    change nothing. *)
Theorem user_stats_counts
    (order_by_created_at_desc : list Scan.t -> list Scan.t)
    (percent : Z -> Z -> Z) (strftime : Z -> string)
    (db : Database) (user_id : Z) :
  let stats := get_user_stats order_by_created_at_desc percent strftime db user_id in
  0 <= phish stats
  /\ 0 <= legit stats
  /\ phish stats + legit stats <= total stats
  /\ total stats = Z.of_nat (List.length (scans_of db user_id))
  /\ (scans_of db user_id = [] -> total stats = 0 /\ phish_rate stats = 0)
  /\ stats
     = get_user_stats order_by_created_at_desc percent strftime
         {| users := users db; scans := scans_of db user_id |} user_id.
Proof.
  cbv zeta. unfold get_user_stats. cbv zeta. cbn [phish legit total phish_rate].
  rewrite !scans_with_filter.
  pose proof (two_verdicts (scans_of db user_id)) as T.
  assert (I : scans_of {| users := users db; scans := scans_of db user_id |} user_id
              = scans_of db user_id).
  { unfold scans_of. cbn [scans]. induction (scans db) as [|s l IH];
      cbn [filter]; [reflexivity|].
    destruct (Scan.user_id s =? user_id) eqn:E; cbn [filter]; [|exact IH].
    now rewrite E, IH. }
  repeat split; try lia.
  - now rewrite H.
  - now rewrite H.
  - now rewrite !I.
Qed.

Lemma strongly_sorted_app {A} (R : A -> A -> Prop) (l1 l2 : list A) :
  StronglySorted R (l1 ++ l2) ->
  forall x y, In x l1 -> In y l2 -> R x y.
Proof.
  induction l1 as [|a l1 IH]; cbn [app]; intros S x y Hx Hy; [destruct Hx|].
  apply StronglySorted_inv in S as [S F]. destruct Hx as [<-|Hx].
  - rewrite Forall_forall in F. apply F. apply in_or_app. now right.
  - now apply IH.
Qed.

Lemma in_firstn {A} (n : nat) (l : list A) (x : A) : In x (firstn n l) -> In x l.
Proof.
  intros H. rewrite <- (firstn_skipn n l). apply in_or_app. now left.
Qed.

Lemma strongly_sorted_firstn {A} (R : A -> A -> Prop) (n : nat) (l : list A) :
  StronglySorted R l -> StronglySorted R (firstn n l).
Proof.
  revert l. induction n as [|n IH]; intros l S; cbn [firstn]; [constructor|].
  destruct l as [|a l]; [constructor|].
  apply StronglySorted_inv in S as [S F]. constructor; [now apply IH|].
  rewrite Forall_forall in *. intros x Hx. apply F. eapply in_firstn; eauto.
Qed.

(** X20: with an engine that orders by time, newest first, the dashboard
    of a logged-in user shows at most 10 scans, all of that user, newest
    first, and every scan of the user it leaves out is no newer than any it
    shows; with at most 10 scans it shows them all. *)
Theorem dashboard_history
    (order_by_created_at_desc : list Scan.t -> list Scan.t)
    (percent : Z -> Z -> Z) (strftime : Z -> string)
    (db : Database) (session : Session) (user : User.t) :
  sorts_newest_first order_by_created_at_desc ->
  current_user db session = Some user ->
  exists history stats,
    dashboard order_by_created_at_desc percent strftime db session
    = IndexPage history stats
    /\ (List.length history <= 10)%nat
    /\ (forall s, In s history ->
          In s (scans db) /\ Scan.user_id s = User.id user)
    /\ StronglySorted newer_first history
    /\ (forall s shown,
          In s (scans_of db (User.id user)) -> ~ In s history ->
          In shown history -> Scan.created_at s <= Scan.created_at shown)
    /\ ((List.length (scans_of db (User.id user)) <= 10)%nat ->
        Permutation (scans_of db (User.id user)) history).
Proof.
  intros [P S] C. unfold dashboard. rewrite C. cbv zeta.
  set (mine := scans_of db (User.id user)).
  set (sorted := order_by_created_at_desc mine).
  do 2 eexists. split; [reflexivity|].
  split; [rewrite length_firstn; lia|].
  split; [|split; [|split]].
  - intros s Hs. apply in_firstn in Hs.
    apply (Permutation_in _ (Permutation_sym (P mine))) in Hs.
    unfold mine, scans_of in Hs. apply filter_In in Hs as [Hin E].
    split; [exact Hin | now apply Z.eqb_eq].
  - apply strongly_sorted_firstn, S.
  - intros s shown Hs Hn Hshown.
    apply (Permutation_in _ (P mine)) in Hs. fold sorted in Hs.
    rewrite <- (firstn_skipn 10 sorted) in Hs.
    apply in_app_or in Hs as [Hs|Hs]; [contradiction|].
    pose proof (S mine) as St. fold sorted in St.
    rewrite <- (firstn_skipn 10 sorted) in St.
    exact (strongly_sorted_app _ _ _ St shown s Hshown Hs).
  - intros L. rewrite firstn_all2; [apply P|].
    unfold sorted. rewrite <- (Permutation_length (P mine)). exact L.
Qed.

Lemma insert_newer_perm (s : Scan.t) (l : list Scan.t) :
  Permutation (s :: l) (insert_newer s l).
Proof.
  induction l as [|x l IH]; cbn [insert_newer]; [reflexivity|].
  destruct (Scan.created_at x <=? Scan.created_at s); [reflexivity|].
  rewrite perm_swap. now constructor.
Qed.

Lemma insert_newer_sorted (s : Scan.t) (l : list Scan.t) :
  StronglySorted newer_first l -> StronglySorted newer_first (insert_newer s l).
Proof.
  induction l as [|x l IH]; cbn [insert_newer]; intros S.
  - repeat constructor.
  - apply StronglySorted_inv in S as [S F].
    destruct (Z.leb_spec (Scan.created_at x) (Scan.created_at s)) as [Le|Gt].
    + constructor; [now constructor|]. constructor; [exact Le|].
      rewrite Forall_forall in *. intros y Hy. specialize (F y Hy).
      unfold newer_first in *. lia.
    + constructor; [now apply IH|].
      rewrite Forall_forall in *. intros y Hy.
      apply (Permutation_in _ (Permutation_sym (insert_newer_perm s l))) in Hy.
      destruct Hy as [<-|Hy]; [unfold newer_first; lia | now apply F].
Qed.

Lemma insertion_order_sorts : sorts_newest_first insertion_order.
Proof.
  split; intros l; induction l as [|s l IH]; cbn [insertion_order fold_right].
  - reflexivity.
  - fold (insertion_order l). rewrite <- insert_newer_perm. now constructor.
  - constructor.
  - fold (insertion_order l). now apply insert_newer_sorted.
Qed.

Lemma dashboard_history_witness :
  exists history stats,
    dashboard insertion_order Z.mul (fun _ => "") sample_db (Some 1)
    = IndexPage history stats
    /\ (List.length history <= 10)%nat
    /\ (forall s, In s history -> In s (scans sample_db) /\ Scan.user_id s = 1)
    /\ StronglySorted newer_first history
    /\ (forall s shown,
          In s (scans_of sample_db 1) -> ~ In s history ->
          In shown history -> Scan.created_at s <= Scan.created_at shown)
    /\ ((List.length (scans_of sample_db 1) <= 10)%nat ->
        Permutation (scans_of sample_db 1) history).
Proof.
  apply (dashboard_history insertion_order Z.mul (fun _ => "") sample_db (Some 1)
           {| User.id := 1; User.email := "alice@example.com";
              User.password_hash := clear_hash "s1" "wonderland";
              User.created_at := 10 |}).
  - exact insertion_order_sorts.
  - reflexivity.
Defined.

(** X21: with an engine that orders by time, newest first, the statistics
    give no last scan exactly when the user has none, and otherwise the
    formatted time of a scan of the user that no other scan of the user is
    newer than. *)
Theorem last_scan_is_newest
    (order_by_created_at_desc : list Scan.t -> list Scan.t)
    (percent : Z -> Z -> Z) (strftime : Z -> string)
    (db : Database) (user_id : Z) :
  sorts_newest_first order_by_created_at_desc ->
  match last_scan (get_user_stats order_by_created_at_desc percent strftime
                     db user_id) with
  | None => scans_of db user_id = []
  | Some text =>
      exists s,
        In s (scans_of db user_id)
        /\ text = strftime (Scan.created_at s)
        /\ forall s', In s' (scans_of db user_id) ->
             Scan.created_at s' <= Scan.created_at s
  end.
Proof.
  intros [P S]. unfold get_user_stats. cbv zeta. cbn [last_scan].
  set (mine := scans_of db user_id). pose proof (P mine) as Pm.
  pose proof (S mine) as Sm.
  destruct (order_by_created_at_desc mine) as [|s l].
  - now apply Permutation_sym, Permutation_nil in Pm.
  - exists s. split; [|split; [reflexivity|]].
    + apply (Permutation_in _ (Permutation_sym Pm)). now left.
    + intros s' Hs'. apply (Permutation_in _ Pm) in Hs'.
      apply StronglySorted_inv in Sm as [_ F]. destruct Hs' as [<-|Hs'];
        [lia|]. rewrite Forall_forall in F. exact (F s' Hs').
Qed.

Lemma last_scan_is_newest_witness :
  exists s,
    In s (scans_of sample_db 1)
    /\ "40" = (fun t => if t =? 40 then "40" else "") (Scan.created_at s)
    /\ forall s', In s' (scans_of sample_db 1) ->
         Scan.created_at s' <= Scan.created_at s.
Proof.
  exact (last_scan_is_newest insertion_order Z.mul
           (fun t => if t =? 40 then "40" else "") sample_db 1
           insertion_order_sorts).
Defined.

(** ** The report *)

(** X22: the report route hands out a scan only to the logged-in user who
    owns it: a report is returned only for a stored scan with the asked id
    whose owner is the user of the session, and when the user owns no scan
    with that id the answer is not-found, whoever else owns one. *)
Theorem report_only_for_owner (db : Database) (session : Session) (scan_id : Z) :
  match download_report db session scan_id with
  | Report scan _ _ _ =>
      exists user,
        current_user db session = Some user
        /\ In scan (scans db)
        /\ Scan.id scan = scan_id
        /\ Scan.user_id scan = User.id user
  | NotFound =>
      exists user,
        current_user db session = Some user
        /\ forall scan, In scan (scans db) -> Scan.id scan = scan_id ->
             Scan.user_id scan <> User.id user
  | view => view = unauthorized /\ is_authenticated db session = false
  end.
Proof.
  unfold download_report, is_authenticated.
  destruct (current_user db session) as [user|]; [|split; reflexivity].
  destruct (find _ (scans db)) as [scan|] eqn:F.
  - apply find_some in F as [Hin E]. apply andb_true_iff in E as [E1 E2].
    apply Z.eqb_eq in E1, E2. exists user. auto.
  - exists user. split; [reflexivity|]. intros scan Hin Hid Ho.
    pose proof (find_none _ _ F scan Hin) as N. cbn beta in N.
    rewrite Hid, Ho, !Z.eqb_refl in N. discriminate.
Qed.

(** X23: on the report the meter of the overall score has the colour of
    the verdict badge, green for the verdict [Legitimate] and red for any
    other text, never orange; the score is 20 or 80. *)
Theorem report_meter_matches_badge (result : string) :
  severity (overall_risk result) = verdict_color result
  /\ verdict_color result <> ORANGE
  /\ (overall_risk result = 20 \/ overall_risk result = 80)
  /\ (verdict_color result = GREEN <-> result = "Legitimate").
Proof.
  unfold overall_risk, verdict_color.
  destruct (String.eqb_spec result "Legitimate") as [->|ne]; cbn;
    repeat split; auto; try discriminate; try tauto.
Qed.

(** ** The TLS probe and the JSON handler, further *)

(** X24: the TLS probe returns 1 exactly when the TCP connection is made,
    the handshake goes through and the peer presents a certificate that is
    not empty; in every other case it returns 0. *)
Theorem has_valid_ssl_iff (W : World) (domain : string) (log : list event) :
  exists v log',
    _has_valid_ssl W domain log = (Returned v, log')
    /\ (v = 0 \/ v = 1)
    /\ (v = 1
        <-> create_connection W domain = Returned tt
            /\ wrap_socket W domain = Returned tt
            /\ exists field cert,
                 getpeercert W domain = Returned (Some (field :: cert))).
Proof.
  unfold _has_valid_ssl, valid_ssl_block. run.
  destruct (create_connection W domain) as [[]|e];
    [destruct (wrap_socket W domain) as [[]|e];
       [destruct (getpeercert W domain) as [[[|x c]|]|e]|]|];
    do 2 eexists; (split; [reflexivity|]);
    try (split; [now left|];
         split; [discriminate|];
         intros (E1 & E2 & f & c' & E3); discriminate).
  split; [now right|]. split; [|reflexivity]. intros _. repeat split. eauto.
Qed.

Lemma classify_returns (W : World) (v : list Z) (log : list event) :
  exists r, classify W v log = (Returned r, (log ++ [Classify v])%list).
Proof. unfold classify. run. eauto. Qed.

(** X25: for a JSON object whose [url] is missing or is a string (other
    JSON values are outside the model): the JSON handler answers with the
    error, and calls nothing, when the [url] is missing, empty or blank; for
    a string that is not blank it never answers with the error. *)
Theorem api_scan_error_iff_blank (W : World) (json_url : option string)
    (log : list event) :
  (PyStr.strip (or_empty json_url) = "" ->
   api_scan W json_url log = (Returned (BadRequest "url field is required"), log))
  /\ (PyStr.strip (or_empty json_url) <> "" ->
      forall error log', api_scan W json_url log <> (Returned (BadRequest error), log')).
Proof.
  unfold api_scan. cbv zeta.
  destruct (String.eqb_spec (PyStr.strip (or_empty json_url)) "") as [E|N];
    split; intros H; try contradiction; [reflexivity|].
  intros error log'. unfold bind at 1.
  destruct (extract_features W _ log) as [[v|e] l]; [|discriminate].
  unfold bind at 1. destruct (classify_returns W v l) as [r ->].
  unfold bind. destruct (get_osint_details W _ _) as [[o|e] l2]; discriminate.
Qed.
